(** * Character Vault: the dnd5e derived-statistics engine

    A shallow embedding of the derived maths and of the armour class of the
    static character viewer (the functions [abilityMod] to [computeAC] of
    the viewer script, in its current revision and, for [computeAC], in the
    earlier revision the repository keeps as [app.js]), together with the
    properties its specification states.

    Modelling conventions.
    - A JavaScript value is a [value]: the JSON values, [undefined], and the
      few built-in objects the code can meet through a prototype.
    - A JavaScript number is a [num]: [NaN], the two infinities, or a finite
      number carried as an exact rational.  Arithmetic is exact: the rounding
      and the overflow of binary64 are outside the model, which is therefore
      exact on every integer below 2^53 in magnitude and on the halves and
      quarters the code produces from them.  The sign of zero is not kept.
    - A string is a [string] of code units below 256; the white space of the
      language in that range is TAB, LF, VT, FF, CR, SP and NBSP.
    - Code that can raise a [TypeError] returns a [result].
    - [Function(body)()] belongs to the engine, not to the script: it is a
      parameter of [computeAC]. *)

From Stdlib Require Import ZArith QArith Qround Qreduction Qabs.
From Stdlib Require Import String Ascii DecimalString List Bool Lia.
From Stdlib Require DecimalN DecimalPos.
Import ListNotations.

Set Implicit Arguments.
Set Warnings "-register-all".

(* ================================================================== *)
(** * Results of code that may raise *)
(* ================================================================== *)

Inductive result (A : Type) : Type :=
| Ok (a : A)
| Throw.

Arguments Ok {A} a.
Arguments Throw {A}.

Definition bind {A B : Type} (r : result A) (k : A -> result B) : result B :=
  match r with
  | Ok a => k a
  | Throw => Throw
  end.

Notation "x <- r ;; k" := (bind r (fun x => k))
  (at level 61, r at next level, right associativity).

Definition returns {A : Type} (r : result A) : Prop := exists a, r = Ok a.

Fixpoint mapM {A B : Type} (f : A -> result B) (l : list A) : result (list B) :=
  match l with
  | [] => Ok []
  | a :: l' => b <- f a ;; bs <- mapM f l' ;; Ok (b :: bs)
  end.

Fixpoint foldM {A S : Type} (f : S -> A -> result S) (l : list A) (s : S)
  : result S :=
  match l with
  | [] => Ok s
  | a :: l' => s' <- f s a ;; foldM f l' s'
  end.

(* ================================================================== *)
(** * Numbers *)
(* ================================================================== *)

Inductive num : Type :=
| NaN
| PInf
| NInf
| Fin (q : Q).

Definition of_Z (z : Z) : num := Fin (inject_Z z).

Definition Qsgn (q : Q) : Z := Z.sgn (Qnum q).

Definition is_zero (q : Q) : bool := (Qnum q =? 0)%Z.

(** [Number.isFinite] on a number. *)
Definition num_finite (n : num) : bool :=
  match n with
  | Fin _ => true
  | _ => false
  end.

(** [a + b] on numbers. *)
Definition num_add (a b : num) : num :=
  match a, b with
  | NaN, _ | _, NaN => NaN
  | PInf, NInf | NInf, PInf => NaN
  | PInf, _ | _, PInf => PInf
  | NInf, _ | _, NInf => NInf
  | Fin x, Fin y => Fin (Qred (x + y))
  end.

Definition num_neg (a : num) : num :=
  match a with
  | NaN => NaN
  | PInf => NInf
  | NInf => PInf
  | Fin x => Fin (Qred (- x))
  end.

(** [a - b]. *)
Definition num_sub (a b : num) : num := num_add a (num_neg b).

Definition inf_of_sign (s : Z) : num :=
  match s with
  | Z0 => NaN
  | Zpos _ => PInf
  | Zneg _ => NInf
  end.

Definition num_sign (a : num) : option Z :=
  match a with
  | NaN => None
  | PInf => Some 1%Z
  | NInf => Some (-1)%Z
  | Fin x => Some (Qsgn x)
  end.

(** [a * b]: a product with an infinity has the product of the signs, and is
    [NaN] when the other factor is zero. *)
Definition num_mul (a b : num) : num :=
  match a, b with
  | Fin x, Fin y => Fin (Qred (x * y))
  | _, _ =>
      match num_sign a, num_sign b with
      | Some s, Some t => inf_of_sign (s * t)
      | _, _ => NaN
      end
  end.

(** [a / b].  The source divides by the literals 2 and 4 only; a zero divisor
    is taken as the positive zero. *)
Definition num_div (a b : num) : num :=
  match a, b with
  | NaN, _ | _, NaN => NaN
  | Fin x, Fin y => if is_zero y then inf_of_sign (Qsgn x) else Fin (Qred (x / y))
  | Fin _, _ => Fin 0
  | _, Fin y =>
      match num_sign a with
      | Some s => inf_of_sign (s * (if is_zero y then 1 else Qsgn y))
      | None => NaN
      end
  | _, _ => NaN
  end.

(** [Math.floor]. *)
Definition num_floor (a : num) : num :=
  match a with
  | Fin x => of_Z (Qfloor x)
  | _ => a
  end.

(** [a <= b]; false as soon as one side is [NaN]. *)
Definition num_leb (a b : num) : bool :=
  match a, b with
  | NaN, _ | _, NaN => false
  | NInf, _ => true
  | _, PInf => true
  | Fin x, Fin y => Qle_bool x y
  | _, _ => false
  end.

(** [a === b] on numbers. *)
Definition num_eqb (a b : num) : bool :=
  match a, b with
  | PInf, PInf | NInf, NInf => true
  | Fin x, Fin y => Qeq_bool x y
  | _, _ => false
  end.

(** [Math.min(a, b)]. *)
Definition num_min (a b : num) : num :=
  match a, b with
  | NaN, _ | _, NaN => NaN
  | _, _ => if num_leb a b then a else b
  end.

(** Truthiness of a number: zero and [NaN] are falsy. *)
Definition num_truthy (a : num) : bool :=
  match a with
  | NaN => false
  | Fin x => negb (is_zero x)
  | _ => true
  end.

(** [a || b] on numbers. *)
Definition num_or (a b : num) : num := if num_truthy a then a else b.

(* ================================================================== *)
(** * Strings and the regular expressions of the source *)
(* ================================================================== *)

Close Scope Q_scope.
Open Scope string_scope.

Definition code (c : ascii) : N := N_of_ascii c.

(** [\d]. *)
Definition is_digit (c : ascii) : bool :=
  ((48 <=? code c) && (code c <=? 57))%N.

(** [\s] (and the characters [trim] removes) among the code units below 256. *)
Definition is_space (c : ascii) : bool :=
  (((9 <=? code c) && (code c <=? 13)) || (code c =? 32) || (code c =? 160))%N.

Definition is_sign (c : ascii) : bool :=
  ((code c =? 43) || (code c =? 45))%N.

(** [[dD]]. *)
Definition is_d (c : ascii) : bool :=
  ((code c =? 100) || (code c =? 68))%N.

Definition lower (c : ascii) : ascii :=
  if ((65 <=? code c) && (code c <=? 90))%N
  then ascii_of_N (code c + 32) else c.

Fixpoint map_string (f : ascii -> ascii) (s : string) : string :=
  match s with
  | "" => ""
  | String c s' => String (f c) (map_string f s')
  end.

Fixpoint forall_string (p : ascii -> bool) (s : string) : bool :=
  match s with
  | "" => true
  | String c s' => p c && forall_string p s'
  end.

Definition is_empty (s : string) : bool :=
  match s with
  | "" => true
  | _ => false
  end.

Definition next_is (p : ascii -> bool) (s : string) : bool :=
  match s with
  | String c _ => p c
  | "" => false
  end.

Fixpoint drop (n : nat) (s : string) : string :=
  match n, s with
  | O, _ => s
  | S n', String _ s' => drop n' s'
  | S _, "" => ""
  end.

(** [String.prototype.trim]. *)
Fixpoint trim_start (s : string) : string :=
  match s with
  | String c s' => if is_space c then trim_start s' else s
  | "" => ""
  end.

Fixpoint trim_end (s : string) : string :=
  match s with
  | "" => ""
  | String c s' =>
      let t := trim_end s' in
      if is_space c && is_empty t then "" else String c t
  end.

Definition trim (s : string) : string := trim_end (trim_start s).

(** [s.includes(sub)]. *)
Fixpoint includes (sub s : string) : bool :=
  prefix sub s ||
  match s with
  | "" => false
  | String _ s' => includes sub s'
  end.

Definition ends_with (suffix s : string) : bool :=
  let n := String.length s in
  let m := String.length suffix in
  (m <=? n)%nat && String.eqb (drop (n - m) s) suffix.

(** [/[dD]\d/.test(s)]: a letter d, of either case, directly before a digit. *)
Fixpoint has_d_digit (s : string) : bool :=
  match s with
  | "" => false
  | String c s' => (is_d c && next_is is_digit s') || has_d_digit s'
  end.

Definition snoc (s : string) (c : ascii) : string := s ++ String c "".

Definition flush (cur : string) : list string :=
  if is_empty cur then [] else [cur].

(** [s.match(/[+-]?\d+/g)]: the successive leftmost, longest matches.  [cur]
    is the match in progress: empty, or a sign known to stand before a digit,
    or a sign-free or signed run of digits. *)
Fixpoint signed_ints_from (cur s : string) : list string :=
  match s with
  | "" => flush cur
  | String c s' =>
      if is_digit c then signed_ints_from (snoc cur c) s'
      else if is_sign c && next_is is_digit s'
           then flush cur ++ signed_ints_from (String c "") s'
           else flush cur ++ signed_ints_from "" s'
  end.

Definition signed_ints (s : string) : list string := signed_ints_from "" s.

(** [s.replace(/^data\./, "system.")]. *)
Definition normalise_key (s : string) : string :=
  if prefix "data." s then "system." ++ drop 5 s else s.

(** [/system\.attributes\.ac\.(value|flat)$/i.test(key)]: the pattern is not
    anchored on the left, so it is a test on the end of the key, letters
    compared without case. *)
Definition isACValue (key : string) : bool :=
  let k := map_string lower key in
  ends_with "system.attributes.ac.value" k || ends_with "system.attributes.ac.flat" k.

(** [/system\.attributes\.ac\.bonus$/i.test(key)]. *)
Definition isACBonus (key : string) : bool :=
  ends_with "system.attributes.ac.bonus" (map_string lower key).

(** [/^[0-9+\-*/().\s]+$/.test(expr)]. *)
Definition arith_char (c : ascii) : bool :=
  is_digit c || is_space c ||
  ((code c =? 43) || (code c =? 45) || (code c =? 42) || (code c =? 47) ||
   (code c =? 40) || (code c =? 41) || (code c =? 46))%N.

Definition arith_only (expr : string) : bool :=
  negb (is_empty expr) && forall_string arith_char expr.

(** [s.split(token).join(repl)] for a non-empty [token]: every occurrence of
    [token], found from the left and without overlap, gives way to [repl].
    [skip] counts the characters of an occurrence still to be passed over. *)
Fixpoint replace_from (skip : nat) (token repl s : string) : string :=
  match s with
  | "" => ""
  | String c s' =>
      match skip with
      | S k => replace_from k token repl s'
      | O =>
          if prefix token s
          then repl ++ replace_from (String.length token - 1) token repl s'
          else String c (replace_from 0 token repl s')
      end
  end.

Definition split_join (token repl s : string) : string :=
  replace_from 0 token repl s.

(** ** Strings to numbers *)

Definition digit_val (c : ascii) : Z := (Z.of_N (code c) - 48)%Z.

(** The value of a run of decimal digits, most significant first. *)
Fixpoint digits_val (acc : Z) (s : string) : Z :=
  match s with
  | "" => acc
  | String c s' => digits_val (10 * acc + digit_val c)%Z s'
  end.

(** [Number(m)] for a match [m] of [/[+-]?\d+/]. *)
Definition Z_of_signed (m : string) : Z :=
  match m with
  | String c s' =>
      if (code c =? 45)%N then (- digits_val 0 s')%Z
      else if (code c =? 43)%N then digits_val 0 s'
      else digits_val 0 m
  | "" => 0%Z
  end.

(** The longest prefix of [s] made of characters in [p], and the rest. *)
Fixpoint span (p : ascii -> bool) (s : string) : string * string :=
  match s with
  | String c s' =>
      if p c then let (a, b) := span p s' in (String c a, b) else ("", s)
  | "" => ("", "")
  end.

Definition hex_val (c : ascii) : option Z :=
  let n := code c in
  if is_digit c then Some (Z.of_N n - 48)%Z
  else if ((97 <=? n) && (n <=? 102))%N then Some (Z.of_N n - 87)%Z
  else if ((65 <=? n) && (n <=? 70))%N then Some (Z.of_N n - 55)%Z
  else None.

(** Digits in base [b], all of them below [b]; [None] on any other
    character and on the empty run. *)
Fixpoint radix_val (b : Z) (acc : Z) (s : string) : option Z :=
  match s with
  | "" => Some acc
  | String c s' =>
      match hex_val c with
      | Some d => if (d <? b)%Z then radix_val b (b * acc + d)%Z s' else None
      | None => None
      end
  end.

(** [0x..], [0o..], [0b..] (either case of the letter). *)
Definition parse_radix (s : string) : option Z :=
  match s with
  | String z (String r body) =>
      if negb (code z =? 48)%N || is_empty body then None
      else if ((code (lower r)) =? 120)%N then radix_val 16 0 body
      else if ((code (lower r)) =? 111)%N then radix_val 8 0 body
      else if ((code (lower r)) =? 98)%N then radix_val 2 0 body
      else None
  | _ => None
  end.

Definition pow10 (e : Z) : Q :=
  match e with
  | Zneg p => (1 # (10 ^ p))%Q
  | _ => inject_Z (10 ^ e)%Z
  end.

(** The exponent part [e[+-]digits] that may close a decimal literal. *)
Definition parse_exponent (s : string) : option Z :=
  match s with
  | "" => Some 0%Z
  | String e rest =>
      if negb (code (lower e) =? 101)%N then None
      else
        let (neg, ds) :=
          match rest with
          | String c r' =>
              if (code c =? 45)%N then (true, r')
              else if (code c =? 43)%N then (false, r')
              else (false, rest)
          | "" => (false, rest)
          end in
        if is_empty ds || negb (forall_string is_digit ds) then None
        else Some (if neg then - digits_val 0 ds else digits_val 0 ds)%Z
  end.

(** An unsigned decimal literal: [digits], [digits.], [digits.digits] or
    [.digits], then an optional exponent. *)
Definition parse_decimal (s : string) : option Q :=
  let (ip, r1) := span is_digit s in
  let (fp, r2) :=
    match r1 with
    | String c r' => if (code c =? 46)%N then span is_digit r' else ("", r1)
    | "" => ("", r1)
    end in
  if is_empty ip && is_empty fp then None
  else
    match parse_exponent r2 with
    | Some e =>
        Some (Qred (inject_Z (digits_val 0 (ip ++ fp))
                    * pow10 (e - Z.of_nat (String.length fp))%Z)%Q)
    | None => None
    end.

(** [Number(s)] for a string [s] (StringToNumber). *)
Definition str_to_num (s : string) : num :=
  let t := trim s in
  if is_empty t then Fin 0
  else
    match parse_radix t with
    | Some z => of_Z z
    | None =>
        let (neg, body) :=
          match t with
          | String c r =>
              if (code c =? 45)%N then (true, r)
              else if (code c =? 43)%N then (false, r)
              else (false, t)
          | "" => (false, t)
          end in
        if String.eqb body "Infinity" then (if neg then NInf else PInf)
        else
          match parse_decimal body with
          | Some q => Fin (if neg then Qred (- q)%Q else q)
          | None => NaN
          end
    end.

(** ** Numbers to strings *)

(** The decimal digits of a non-negative integer. *)
Definition dec_of_Z (z : Z) : string :=
  NilZero.string_of_uint (N.to_uint (Z.to_N z)).

Fixpoint zeros (n : nat) : string :=
  match n with
  | O => ""
  | S n' => String "0" (zeros n')
  end.

Fixpoint take (n : nat) (s : string) : string :=
  match n, s with
  | S n', String c s' => String c (take n' s')
  | _, _ => ""
  end.

Definition is_zero_char (c : ascii) : bool := (code c =? 48)%N.

Fixpoint strip_zeros_end (s : string) : string :=
  match s with
  | "" => ""
  | String c s' =>
      let t := strip_zeros_end s' in
      if is_zero_char c && is_empty t then "" else String c t
  end.

(** At most [fuel] decimals of [r / b], for [0 <= r < b]. *)
Fixpoint frac_digits (fuel : nat) (r b : Z) : string :=
  match fuel with
  | O => ""
  | S f =>
      if (r =? 0)%Z then ""
      else String (ascii_of_N (Z.to_N (10 * r / b) + 48))
                  (frac_digits f (10 * r mod b)%Z b)
  end.

(** The zero decimals that open [r / b], and the remainder they leave. *)
Fixpoint skip_zeros (fuel : nat) (r b : Z) : nat * Z :=
  match fuel with
  | O => (O, r)
  | S f =>
      if (10 * r <? b)%Z
      then let (z, r') := skip_zeros f (10 * r)%Z b in (S z, r')
      else (O, r)
  end.

(** The layout of Number::toString, from the significant digits [s] and the
    position [n] of the decimal point after them. *)
Definition layout (s : string) (n : Z) : string :=
  let k := Z.of_nat (String.length s) in
  if ((k <=? n) && (n <=? 21))%Z then s ++ zeros (Z.to_nat (n - k))
  else if ((0 <? n) && (n <=? 21))%Z
       then take (Z.to_nat n) s ++ "." ++ drop (Z.to_nat n) s
  else if ((-6 <? n) && (n <=? 0))%Z then "0." ++ zeros (Z.to_nat (- n)) ++ s
  else
    let e := (n - 1)%Z in
    (if (k =? 1)%Z then s else take 1 s ++ "." ++ drop 1 s)
    ++ "e" ++ (if (e <? 0)%Z then "-" else "+") ++ dec_of_Z (Z.abs e).

(** A positive rational [a / b]: exact digits, seventeen of them at most
    once the expansion leaves the integers. *)
Definition pos_to_string (a : Z) (b : positive) : string :=
  let ip := (a / Zpos b)%Z in
  let r := (a mod Zpos b)%Z in
  if (0 <? ip)%Z then
    let ds := dec_of_Z ip in
    let l := String.length ds in
    layout (strip_zeros_end (ds ++ frac_digits (17 - l) r (Zpos b))) (Z.of_nat l)
  else
    let (z, r') := skip_zeros (Pos.size_nat b) r (Zpos b) in
    layout (strip_zeros_end (frac_digits 17 r' (Zpos b))) (- Z.of_nat z).

(** [String(n)] for a number [n] (Number::toString). *)
Definition num_to_string (n : num) : string :=
  match n with
  | NaN => "NaN"
  | PInf => "Infinity"
  | NInf => "-Infinity"
  | Fin q =>
      match Qnum q with
      | Z0 => "0"
      | Zpos a => pos_to_string (Zpos a) (Qden q)
      | Zneg a => "-" ++ pos_to_string (Zpos a) (Qden q)
      end
  end.

(* ================================================================== *)
(** * Values *)
(* ================================================================== *)

(** The values the code handles: what [JSON.parse] builds, [undefined], and
    [VNative name], a built-in object met through a prototype (the method
    [flat] of arrays, and the members of [Object.prototype] that an object
    literal inherits; the name [__proto__] stands for [Object.prototype]
    itself).  The properties of an object are listed in the order
    [Object.entries] visits them, each name once; a lookup takes the first
    entry of a name. *)
Inductive value : Type :=
| VUndef
| VNull
| VBool (b : bool)
| VNum (n : num)
| VStr (s : string)
| VArr (l : list value)
| VObj (kv : list (string * value))
| VNative (name : string).

Fixpoint assoc {A : Type} (k : string) (kv : list (string * A)) : option A :=
  match kv with
  | [] => None
  | (k', v) :: kv' => if String.eqb k k' then Some v else assoc k kv'
  end.

Definition has_key {A : Type} (k : string) (kv : list (string * A)) : bool :=
  match assoc k kv with
  | Some _ => true
  | None => false
  end.

(** Truthiness. *)
Definition truthy (v : value) : bool :=
  match v with
  | VUndef | VNull => false
  | VBool b => b
  | VNum n => num_truthy n
  | VStr s => negb (is_empty s)
  | VArr _ | VObj _ | VNative _ => true
  end.

(** [v == null]. *)
Definition nullish (v : value) : bool :=
  match v with
  | VUndef | VNull => true
  | _ => false
  end.

(** [a ?? b]. *)
Definition coalesce (a b : value) : value := if nullish a then b else a.

(** [a || b]. *)
Definition or_else (a b : value) : value := if truthy a then a else b.

Notation "a ?? b" := (coalesce a b) (at level 50, left associativity).

(** [v?.k], for [k] one of the property names the source spells out.  None
    of them is inherited by an object, a string, a number or a boolean, and
    arrays inherit [flat] alone. *)
Definition prop (v : value) (k : string) : value :=
  match v with
  | VObj kv =>
      match assoc k kv with
      | Some x => x
      | None => VUndef
      end
  | VArr _ => if String.eqb k "flat" then VNative "flat" else VUndef
  | _ => VUndef
  end.

Notation "v ?. k" := (prop v k) (at level 8, left associativity, format "v ?. k").

(** [Array.isArray]. *)
Definition isArray (v : value) : bool :=
  match v with
  | VArr _ => true
  | _ => false
  end.

(** [v === lit] for a string literal. *)
Definition str_is (v : value) (lit : string) : bool :=
  match v with
  | VStr s => String.eqb s lit
  | _ => false
  end.

(** [v === z] for an integer literal [z]. *)
Definition num_is (v : value) (z : Z) : bool :=
  match v with
  | VNum n => num_eqb n (of_Z z)
  | _ => false
  end.

(** [Number.isFinite(v)]: true of finite numbers only, with no coercion. *)
Definition isFinite (v : value) : bool :=
  match v with
  | VNum n => num_finite n
  | _ => false
  end.

Definition join_with (sep : string) (parts : list string) : string :=
  match parts with
  | [] => ""
  | p :: ps => fold_left (fun acc x => acc ++ sep ++ x) ps p
  end.

(** The text of a built-in: [Object.prototype] prints as any plain object,
    a function as its name around a native body, here with the spacing of
    V8 (the property [constructor] holds the function [Object]).  Nothing
    below depends on the spelling, only on its being a text. *)
Definition native_text (name : string) : string :=
  if String.eqb name "__proto__" then "[object Object]"
  else if String.eqb name "constructor" then "function Object() { [native code] }"
  else "function " ++ name ++ "() { [native code] }".

(** [String(v)] (ToString).  An object is turned into a primitive through
    its [toString] and [valueOf]; a parsed object whose own [toString]
    property hides the inherited method has none that can be called, and the
    conversion raises.  An array joins its elements with commas, [null] and
    [undefined] giving the empty string. *)
Fixpoint to_string (v : value) : result string :=
  match v with
  | VUndef => Ok "undefined"
  | VNull => Ok "null"
  | VBool b => Ok (if b then "true" else "false")
  | VNum n => Ok (num_to_string n)
  | VStr s => Ok s
  | VArr l =>
      parts <- (fix elems (l : list value) : result (list string) :=
                  match l with
                  | [] => Ok []
                  | x :: l' =>
                      s <- (if nullish x then Ok "" else to_string x) ;;
                      ss <- elems l' ;;
                      Ok (s :: ss)
                  end) l ;;
      Ok (join_with "," parts)
  | VObj kv => if has_key "toString" kv then Throw else Ok "[object Object]"
  | VNative name => Ok (native_text name)
  end.

(** [Number(v)] (ToNumber). *)
Definition to_number (v : value) : result num :=
  match v with
  | VUndef => Ok NaN
  | VNull => Ok (Fin 0)
  | VBool b => Ok (if b then Fin 1 else Fin 0)
  | VNum n => Ok n
  | VStr s => Ok (str_to_num s)
  | VArr _ | VObj _ | VNative _ => s <- to_string v ;; Ok (str_to_num s)
  end.

(** ToPrimitive without a hint, on the values above. *)
Definition to_primitive (v : value) : result value :=
  match v with
  | VArr _ | VObj _ | VNative _ => s <- to_string v ;; Ok (VStr s)
  | _ => Ok v
  end.

Definition is_string (v : value) : bool :=
  match v with
  | VStr _ => true
  | _ => false
  end.

(** [a + b]: concatenation as soon as one primitive is a string. *)
Definition js_add (a b : value) : result value :=
  pa <- to_primitive a ;;
  pb <- to_primitive b ;;
  if is_string pa || is_string pb
  then sa <- to_string pa ;; sb <- to_string pb ;; Ok (VStr (sa ++ sb))
  else na <- to_number pa ;; nb <- to_number pb ;; Ok (VNum (num_add na nb)).

(** [safeText(s)], that is [(s ?? "").toString()]. *)
Definition safeText (s : value) : result string :=
  to_string (s ?? VStr "").

Fixpoint entries_from {A : Type} (i : nat) (l : list A) : list (string * A) :=
  match l with
  | [] => []
  | x :: l' => (dec_of_Z (Z.of_nat i), x) :: entries_from (S i) l'
  end.

Fixpoint chars (s : string) : list value :=
  match s with
  | "" => []
  | String c s' => VStr (String c "") :: chars s'
  end.

(** [Object.entries(v)] for a non-nullish [v]. *)
Definition entries (v : value) : list (string * value) :=
  match v with
  | VObj kv => kv
  | VArr l => entries_from 0 l
  | VStr s => entries_from 0 (chars s)
  | _ => []
  end.

(** [items.filter(..)] and the other array methods exist on arrays only:
    this is the receiver as a list, or the [TypeError] of calling a method
    that is not there. *)
Definition as_array (v : value) : result (list value) :=
  match v with
  | VArr l => Ok l
  | _ => Throw
  end.

(** [for (const x of v)]: arrays and strings are iterable, nothing else
    among the values is. *)
Definition iterate (v : value) : result (list value) :=
  match v with
  | VArr l => Ok l
  | VStr s => Ok (chars s)
  | _ => Throw
  end.

(* ================================================================== *)
(** * dnd5e derived maths *)
(* ================================================================== *)

(** [abilityMod(score)]. *)
Definition abilityMod (score : value) : result num :=
  s <- to_number score ;;
  if negb (num_finite s) then Ok (Fin 0)
  else Ok (num_floor (num_div (num_sub s (Fin 10)) (Fin 2))).

(** The receiver of [items.filter] after [actor?.items || []]. *)
Definition items_of (actor : value) : result (list value) :=
  as_array (or_else actor?."items" (VArr [])).

(** [totalLevel(actor)]. *)
Definition totalLevel (actor : value) : result num :=
  let sys := or_else actor?."system" (VObj []) in
  items <- items_of actor ;;
  let classes := filter (fun i => str_is i?."type" "class") items in
  lvl <- foldM (fun a c =>
                  n <- to_number (c?."system"?."levels" ?? VNum (Fin 0)) ;;
                  Ok (num_add a n))
               classes (Fin 0) ;;
  if num_truthy lvl then Ok lvl
  else
    n <- to_number (sys?."details"?."level" ?? VNum (Fin 0)) ;;
    Ok (num_or n (Fin 0)).

(** [proficiencyBonus(level)]. *)
Definition proficiencyBonus (level : value) : result num :=
  l <- to_number level ;;
  if negb (num_finite l) || num_leb l (Fin 0) then Ok (Fin 0)
  else Ok (num_add (Fin 2) (num_floor (num_div (num_sub l (Fin 1)) (Fin 4)))).

(** [parseFlatBonus(v)]. *)
Definition parseFlatBonus (v : value) : result num :=
  if nullish v then Ok (Fin 0)
  else
    match v with
    | VNum n => Ok (if num_finite n then n else Fin 0)
    | _ =>
        str <- to_string v ;;
        let s := trim str in
        if is_empty s then Ok (Fin 0)
        else if has_d_digit s then Ok (Fin 0)
        else
          match signed_ints s with
          | [] => Ok (Fin 0)
          | nums =>
              Ok (fold_left num_add
                    (filter num_finite (map (fun n => of_Z (Z_of_signed n)) nums))
                    (Fin 0))
          end
    end.

(** [profComponent(rank, prof)]. *)
Definition profComponent (rank : value) (prof : num) : result num :=
  r <- to_number (rank ?? VNum (Fin 0)) ;;
  if negb (num_finite r) || num_leb r (Fin 0) then Ok (Fin 0)
  else if num_eqb r (Fin (1 # 2)) then Ok (num_floor (num_div prof (Fin 2)))
  else if num_eqb r (Fin 1) then Ok prof
  else if num_eqb r (Fin 2) then Ok (num_mul (Fin 2) prof)
  else Ok (num_floor (num_mul r prof)).

Record AbilityMods : Type := {
  m_str : num; m_dex : num; m_con : num;
  m_int : num; m_wis : num; m_cha : num
}.

(** The names every object literal inherits from [Object.prototype]. *)
Definition object_proto_names : list string :=
  [ "constructor"; "toString"; "toLocaleString"; "valueOf"; "hasOwnProperty";
    "isPrototypeOf"; "propertyIsEnumerable"; "__proto__";
    "__defineGetter__"; "__defineSetter__"; "__lookupGetter__";
    "__lookupSetter__" ].

Definition inherited (k : string) : bool :=
  existsb (String.eqb k) object_proto_names.

(** [abilityMods[key]] on the object literal of [dnd5eDerived]: one of its
    six own properties, or what the literal inherits. *)
Definition mods_get (m : AbilityMods) (key : string) : value :=
  if String.eqb key "str" then VNum (m_str m)
  else if String.eqb key "dex" then VNum (m_dex m)
  else if String.eqb key "con" then VNum (m_con m)
  else if String.eqb key "int" then VNum (m_int m)
  else if String.eqb key "wis" then VNum (m_wis m)
  else if String.eqb key "cha" then VNum (m_cha m)
  else if inherited key then VNative key
  else VUndef.

(** [obj[k] = v] on the object [skillTotals], for a primitive [v]: the
    inherited setter of [__proto__] receives the value and drops it, any
    other key becomes or stays an own property. *)
Fixpoint update (k : string) (v : value) (kv : list (string * value))
  : list (string * value) :=
  match kv with
  | [] => [(k, v)]
  | (k', v') :: kv' =>
      if String.eqb k k' then (k, v) :: kv' else (k', v') :: update k v kv'
  end.

Definition set_prop (k : string) (v : value) (kv : list (string * value))
  : list (string * value) :=
  if String.eqb k "__proto__" then kv else update k v kv.

(** The base of a skill:
    [ability && abilityMods[ability] != null ? abilityMods[ability] : 0]. *)
Definition skill_base (mods : AbilityMods) (ability : value) : result value :=
  if truthy ability then
    key <- to_string ability ;;
    let m := mods_get mods key in
    Ok (if negb (nullish m) then m else VNum (Fin 0))
  else Ok (VNum (Fin 0)).

(** The three flat bonuses of a skill check, summed. *)
Definition skill_bonus (sys sk : value) : result num :=
  b1 <- parseFlatBonus sk?."bonuses"?."check" ;;
  b2 <- parseFlatBonus sys?."bonuses"?."abilities"?."skill" ;;
  b3 <- parseFlatBonus sys?."bonuses"?."skills"?."check" ;;
  Ok (num_add (num_add b1 b2) b3).

(** The body of the loop over [Object.entries(skills)]: the value stored
    under [skillTotals[k]]. *)
Definition skill_total (sys : value) (prof : num) (mods : AbilityMods)
  (sk : value) : result value :=
  base <- skill_base mods sk?."ability" ;;
  profPart <- profComponent sk?."value" prof ;;
  bonus <- skill_bonus sys sk ;;
  t <- js_add base (VNum profPart) ;;
  js_add t (VNum bonus).

Record Derived : Type := {
  level : num;
  prof : num;
  abilityMods : AbilityMods;
  skillTotals : list (string * value);
  passivePrc : value
}.

(** [dnd5eDerived(actor)]. *)
Definition dnd5eDerived (actor : value) : result Derived :=
  let sys := or_else actor?."system" (VObj []) in
  level <- totalLevel actor ;;
  prof <- proficiencyBonus (VNum level) ;;
  let abilities := or_else sys?."abilities" (VObj []) in
  m1 <- abilityMod abilities?."str"?."value" ;;
  m2 <- abilityMod abilities?."dex"?."value" ;;
  m3 <- abilityMod abilities?."con"?."value" ;;
  m4 <- abilityMod abilities?."int"?."value" ;;
  m5 <- abilityMod abilities?."wis"?."value" ;;
  m6 <- abilityMod abilities?."cha"?."value" ;;
  let mods := {| m_str := m1; m_dex := m2; m_con := m3;
                 m_int := m4; m_wis := m5; m_cha := m6 |} in
  let skills := or_else sys?."skills" (VObj []) in
  totals <- foldM (fun acc e =>
                     t <- skill_total sys prof mods (snd e) ;;
                     Ok (set_prop (fst e) t acc))
                  (entries skills) [] ;;
  let prc := match assoc "prc" totals with
             | Some t => t
             | None => VUndef
             end in
  p0 <- js_add (VNum (Fin 10)) (prc ?? VNum (Fin 0)) ;;
  b1 <- parseFlatBonus skills?."prc"?."bonuses"?."passive" ;;
  p1 <- js_add p0 (VNum b1) ;;
  b2 <- parseFlatBonus sys?."bonuses"?."skills"?."passive" ;;
  p2 <- js_add p1 (VNum b2) ;;
  Ok {| level := level; prof := prof; abilityMods := mods;
        skillTotals := totals; passivePrc := p2 |}.

(* ================================================================== *)
(** * Armour class *)
(* ================================================================== *)

(** [AE_MODES]. *)
Module AE_MODES.
Definition CUSTOM : num := Fin 0.
Definition MULTIPLY : num := Fin 1.
Definition ADD : num := Fin 2.
Definition DOWNGRADE : num := Fin 3.
Definition UPGRADE : num := Fin 4.
Definition OVERRIDE : num := Fin 5.
End AE_MODES.

(** [isItemActiveForBonuses(item)]. *)
Definition isItemActiveForBonuses (item : value) : result bool :=
  let s := or_else item?."system" (VObj []) in
  let equipped := truthy s?."equipped" in
  n <- to_number (s?."attunement" ?? VNum (Fin 0)) ;;
  let attuned := num_eqb n (Fin 2) in
  Ok (equipped || attuned).

(** The test an effect of an item passes before it is pushed:
    neither falsy nor disabled, and flagged as transferred. *)
Definition transfers (ef : value) : bool :=
  truthy ef && negb (truthy ef?."disabled") &&
  (truthy ef?."transfer" || truthy ef?."flags"?."dae"?."transfer").

(** [collectTransferEffects(actor)]. *)
Definition collectTransferEffects (actor : value) : result (list value) :=
  let out :=
    match actor?."effects" with
    | VArr actorEffects => actorEffects
    | _ => []
    end in
  items <- iterate (or_else actor?."items" (VArr [])) ;;
  foldM (fun out it =>
           active <- isItemActiveForBonuses it ;;
           if negb active then Ok out
           else
             match it?."effects" with
             | VArr effects => Ok (out ++ filter transfers effects)%list
             | _ => Ok out
             end)
        items out.

(** The accumulator of [extractACFromEffects]: [add], and [override],
    which is [null] until a change sets it. *)
Record ACEffects : Type := {
  add : num;
  override : option num
}.

(** The body of the loop over the changes of an effect. *)
Definition apply_change (st : ACEffects) (ch : value) : result ACEffects :=
  keyRaw <- safeText ch?."key" ;;
  if is_empty keyRaw then Ok st
  else
    let key := normalise_key keyRaw in
    mode <- to_number (ch?."mode" ?? VNum AE_MODES.CUSTOM) ;;
    val <- parseFlatBonus ch?."value" ;;
    if isACValue key then
      if num_eqb mode AE_MODES.OVERRIDE
      then Ok {| add := add st; override := Some val |}
      else if num_eqb mode AE_MODES.ADD
      then Ok {| add := num_add (add st) val; override := override st |}
      else Ok st
    else if isACBonus key then
      if num_eqb mode AE_MODES.ADD
      then Ok {| add := num_add (add st) val; override := override st |}
      else if num_eqb mode AE_MODES.OVERRIDE
      then Ok {| add := val; override := override st |}
      else Ok st
    else Ok st.

(** The body of the loop over the effects. *)
Definition apply_effect (st : ACEffects) (ef : value) : result ACEffects :=
  match ef?."changes" with
  | VArr changes => foldM apply_change changes st
  | _ => Ok st
  end.

(** [extractACFromEffects(actor)]. *)
Definition extractACFromEffects (actor : value) : result ACEffects :=
  effects <- collectTransferEffects actor ;;
  foldM apply_effect effects {| add := Fin 0; override := None |}.

(** [getArmorMagicBonus(item)]. *)
Definition getArmorMagicBonus (item : value) : result num :=
  let a := or_else item?."system"?."armor" (VObj []) in
  let v := a?."magicalBonus" ?? a?."magicBonus"
           ?? item?."system"?."magicalBonus" ?? item?."system"?."magicBonus"
           ?? VNum (Fin 0) in
  n <- to_number v ;;
  Ok (num_or n (Fin 0)).

(** [x > 0], as the sort reads the result of its comparator. *)
Definition num_pos (n : num) : bool :=
  match n with
  | PInf => true
  | Fin q => (0 <? Qnum q)%Z
  | _ => false
  end.

(** [list.sort((a, b) => b.total - a.total)]: the sort is stable, so an
    element goes in front of the first one that is not strictly greater. *)
Fixpoint insert_desc (x : value * num) (l : list (value * num))
  : list (value * num) :=
  match l with
  | [] => [x]
  | y :: l' =>
      if num_pos (num_sub (snd y) (snd x)) then y :: insert_desc x l'
      else x :: l
  end.

Definition sort_desc (l : list (value * num)) : list (value * num) :=
  fold_right insert_desc [] l.

Definition is_armour_piece (i : value) : bool :=
  str_is i?."type" "equipment" && isFinite i?."system"?."armor"?."value".

Definition is_shield (i : value) : bool :=
  str_is i?."system"?."type"?."value" "shield".

Record ArmorParts : Type := {
  bestArmour : value;
  armourTotal : num;
  shieldTotal : num;
  acArmor : num
}.

(** [computeACArmorParts(actor)]. *)
Definition computeACArmorParts (actor : value) : result ArmorParts :=
  items <- items_of actor ;;
  let equipped := filter (fun i => truthy i?."system"?."equipped") items in
  let armours :=
    filter (fun i => is_armour_piece i && negb (is_shield i)) equipped in
  let shields :=
    filter (fun i => is_armour_piece i && is_shield i) equipped in
  scored <- mapM (fun i =>
                    base <- to_number (i?."system"?."armor"?."value"
                                       ?? VNum (Fin 0)) ;;
                    magic <- getArmorMagicBonus i ;;
                    Ok (i, num_add base magic))
                 armours ;;
  let bestArmour :=
    match sort_desc scored with
    | best :: _ => fst best
    | [] => VUndef
    end in
  armourBase <- (if truthy bestArmour
                 then to_number bestArmour?."system"?."armor"?."value"
                 else Ok (Fin 10)) ;;
  armourMagic <- (if truthy bestArmour then getArmorMagicBonus bestArmour
                  else Ok (Fin 0)) ;;
  let armourTotal := num_add armourBase armourMagic in
  shieldTotal <- foldM (fun a s =>
                          base <- to_number (s?."system"?."armor"?."value"
                                             ?? VNum (Fin 0)) ;;
                          magic <- getArmorMagicBonus s ;;
                          Ok (num_add (num_add a base) magic))
                       shields (Fin 0) ;;
  Ok {| bestArmour := bestArmour; armourTotal := armourTotal;
        shieldTotal := shieldTotal;
        acArmor := num_add armourTotal shieldTotal |}.

(** The Dex a suit of armour lets through:
    [dexCap == null || dexCap === "" ? dexFull
     : Math.min(dexFull, Number(dexCap) || 0)]. *)
Definition dexCapped (dexFull : num) (dexCap : value) : result num :=
  if nullish dexCap || str_is dexCap "" then Ok dexFull
  else n <- to_number dexCap ;; Ok (num_min dexFull (num_or n (Fin 0))).

(** The flat bonuses the document carries in its own fields. *)
Definition sysBonus (sys ac : value) : result num :=
  b1 <- parseFlatBonus ac?."bonus" ;;
  b2 <- parseFlatBonus sys?."bonuses"?."ac"?."value" ;;
  b3 <- parseFlatBonus sys?."bonuses"?."ac"?."bonus" ;;
  b4 <- parseFlatBonus sys?."bonuses"?."ac"?."all" ;;
  Ok (num_add (num_add (num_add b1 b2) b3) b4).

(** [Number.isFinite(effectOverride)], with the number it then holds. *)
Definition finite_override (o : option num) : option num :=
  match o with
  | Some n => if num_finite n then Some n else None
  | None => None
  end.

Definition BONUS_TOKEN : string := "@attributes.ac.bonus".

(** The token context of a custom formula, in the order of the literal. *)
Definition formula_context (acArmor shieldTotal dexCapped totalBonus : num)
  (derived : Derived) : list (string * num) :=
  [ ("@attributes.ac.armor", acArmor);
    ("@attributes.ac.shield", shieldTotal);
    ("@attributes.ac.base", Fin 10);
    ("@attributes.ac.dex", dexCapped);
    (BONUS_TOKEN, totalBonus);
    ("@abilities.str.mod", m_str (abilityMods derived));
    ("@abilities.dex.mod", m_dex (abilityMods derived));
    ("@abilities.con.mod", m_con (abilityMods derived));
    ("@abilities.int.mod", m_int (abilityMods derived));
    ("@abilities.wis.mod", m_wis (abilityMods derived));
    ("@abilities.cha.mod", m_cha (abilityMods derived));
    ("@attributes.prof", prof derived) ].

(** The loop [expr = expr.split(token).join(String(Number(val ?? 0)))]. *)
Definition substitute (ctx : list (string * num)) (formula : string) : string :=
  fold_left (fun expr tv => split_join (fst tv) (num_to_string (snd tv)) expr)
            ctx formula.

Section Engine.

(** [Function(body)()]: the engine compiles and runs the text of a
    function body.  [Throw] stands for the [SyntaxError] of a body that
    does not parse as well as for an error raised while it runs. *)
Variable run_function : string -> result value.

(** The custom formula path: [Some n] when it returns [n], [None] when
    control falls through to the heuristic. *)
Definition custom_formula (formula : string) (ctx : list (string * num))
  (totalBonus : num) : option num :=
  let expr := substitute ctx formula in
  if arith_only expr then
    match run_function ("return (" ++ expr ++ ");") with
    | Ok n =>
        if isFinite n then
          match n with
          | VNum x =>
              Some (if negb (includes BONUS_TOKEN formula)
                    then num_add x totalBonus else x)
          | _ => None
          end
        else None
    | Throw => None
    end
  else None.

(** [computeAC(actor, derived)]. *)
Definition computeAC (actor : value) (derived : Derived) : result num :=
  let sys := or_else actor?."system" (VObj []) in
  let ac := or_else sys?."attributes"?."ac" (VObj []) in
  if isFinite ac?."value" then to_number ac?."value"
  else if isFinite ac?."flat" then to_number ac?."flat"
  else
    parts <- computeACArmorParts actor ;;
    let dexFull := m_dex (abilityMods derived) in
    let dexCap := if truthy (bestArmour parts)
                  then (bestArmour parts)?."system"?."armor"?."dex"
                  else VNull in
    dexCapped <- dexCapped dexFull dexCap ;;
    effects <- extractACFromEffects actor ;;
    sysBonus <- sysBonus sys ac ;;
    let totalBonus := num_add sysBonus (add effects) in
    let heuristic :=
      num_add (num_add (acArmor parts) dexCapped) totalBonus in
    match finite_override (override effects) with
    | Some effectOverride => Ok (num_add effectOverride totalBonus)
    | None =>
        if str_is ac?."calc" "custom" && is_string ac?."formula" then
          match ac?."formula" with
          | VStr formula =>
              parts' <- computeACArmorParts actor ;;
              let ctx := formula_context (acArmor parts) (shieldTotal parts')
                           dexCapped totalBonus derived in
              match custom_formula formula ctx totalBonus with
              | Some n => Ok n
              | None => Ok heuristic
              end
          | _ => Ok heuristic
          end
        else Ok heuristic
    end.

End Engine.

(* ================================================================== *)
(** * The earlier revision of the armour class *)
(* ================================================================== *)

(** The repository carries a second copy of the viewer script, [app.js],
    which is an earlier revision: its derived maths ([abilityMod],
    [totalLevel], [proficiencyBonus], [parseFlatBonus], [profComponent],
    [dnd5eDerived]) are, comments apart, the text embedded above; its armour
    class knows neither active effects nor magical bonuses, and differs on
    the custom formula. *)
Module Legacy.

Record ArmorAndShield : Type := {
  armourBase : num;
  shieldBonus : num;
  bestArmour : value
}.

(** [computeACArmorAndShield(actor)]. *)
Definition computeACArmorAndShield (actor : value) : result ArmorAndShield :=
  items <- items_of actor ;;
  let equipped := filter (fun i => truthy i?."system"?."equipped") items in
  let armours :=
    filter (fun i => is_armour_piece i && negb (is_shield i)) equipped in
  let shields :=
    filter (fun i => is_armour_piece i && is_shield i) equipped in
  keyed <- mapM (fun i =>
                   n <- to_number (i?."system"?."armor"?."value"
                                   ?? VNum (Fin 0)) ;;
                   Ok (i, n))
                armours ;;
  let bestArmour :=
    match sort_desc keyed with
    | best :: _ => fst best
    | [] => VUndef
    end in
  armourBase <- (if truthy bestArmour
                 then to_number bestArmour?."system"?."armor"?."value"
                 else Ok (Fin 10)) ;;
  shieldBonus <- foldM (fun a s =>
                          n <- to_number (s?."system"?."armor"?."value"
                                          ?? VNum (Fin 0)) ;;
                          Ok (num_add a n))
                       shields (Fin 0) ;;
  Ok {| armourBase := armourBase; shieldBonus := shieldBonus;
        bestArmour := bestArmour |}.

(** The token context of the earlier revision. *)
Definition formula_context (armour acDex : num) (derived : Derived)
  : list (string * num) :=
  [ ("@attributes.ac.armor", armour);
    ("@attributes.ac.dex", acDex);
    ("@abilities.str.mod", m_str (abilityMods derived));
    ("@abilities.dex.mod", m_dex (abilityMods derived));
    ("@abilities.con.mod", m_con (abilityMods derived));
    ("@abilities.int.mod", m_int (abilityMods derived));
    ("@abilities.wis.mod", m_wis (abilityMods derived));
    ("@abilities.cha.mod", m_cha (abilityMods derived)) ].

Section Engine.

Variable run_function : string -> result value.

(** The custom formula path: [Some n] when it returns [n]. *)
Definition custom_formula (formula : string) (ctx : list (string * num))
  : option num :=
  let expr := substitute ctx formula in
  if arith_only expr then
    match run_function ("return (" ++ expr ++ ");") with
    | Ok (VNum x) => if num_finite x then Some x else None
    | _ => None
    end
  else None.

(** [computeAC(actor, derived)]. *)
Definition computeAC (actor : value) (derived : Derived) : result num :=
  let sys := or_else actor?."system" (VObj []) in
  let ac := or_else sys?."attributes"?."ac" (VObj []) in
  if isFinite ac?."value" then to_number ac?."value"
  else if isFinite ac?."flat" then to_number ac?."flat"
  else
    parts <- computeACArmorAndShield actor ;;
    let dex := m_dex (abilityMods derived) in
    let dexCap := if truthy (bestArmour parts)
                  then (bestArmour parts)?."system"?."armor"?."dex"
                  else VNull in
    acDex <- dexCapped dex dexCap ;;
    let heuristic :=
      flatBonus <- parseFlatBonus ac?."bonus" ;;
      Ok (num_add (num_add (num_add (armourBase parts) acDex)
                           (shieldBonus parts))
                  flatBonus) in
    if str_is ac?."calc" "custom" && is_string ac?."formula" then
      match ac?."formula" with
      | VStr formula =>
          let ctx := formula_context
                       (num_add (armourBase parts) (shieldBonus parts))
                       acDex derived in
          match custom_formula formula ctx with
          | Some n => Ok n
          | None => heuristic
          end
      | _ => heuristic
      end
    else heuristic.

End Engine.

(** [spellPreparedLabel(spell)], which the earlier revision writes without
    [preparedState]. *)
Definition spellPreparedLabel (spell : value) : string :=
  let s := or_else spell?."system" (VObj []) in
  let p := s?."prepared" in
  if num_is p 2 then "Always prepared"
  else if num_is p 1 then "Prepared"
  else if num_is p 0 then "Not prepared"
  else
    let mode := s?."preparation"?."mode" in
    if str_is mode "prepared"
    then (if truthy s?."preparation"?."prepared"
          then "Prepared" else "Not prepared")
    else if str_is mode "always" then "Always prepared"
    else "".

End Legacy.

(* ================================================================== *)
(** * The viewer: texts, payloads and filters *)
(* ================================================================== *)

(** A payload is what [JSON.parse] builds from an exported file; it holds
    no built-in object. *)

(** [toLowerCase] on a code unit below 256: the letters A to Z and the
    accented capitals from 192 to 222, the multiplication sign (215)
    apart. *)
Definition lower_unit (c : ascii) : ascii :=
  let n := code c in
  if (((65 <=? n) && (n <=? 90))
      || ((192 <=? n) && (n <=? 222) && negb (n =? 215)))%N
  then ascii_of_N (n + 32) else c.

Definition toLowerCase (s : string) : string := map_string lower_unit s.

(** [norm(s)]. *)
Definition norm (s : value) : result string :=
  t <- safeText s ;;
  Ok (trim (toLowerCase t)).

(** [[a-z0-9]]. *)
Definition is_key_char (c : ascii) : bool :=
  ((97 <=? code c) && (code c <=? 122))%N || is_digit c.

(** [s.replace(/[p]+/g, " ")] for a class [p] of characters: every maximal
    run of characters in [p] gives way to one blank.  [run] tells that the
    character before was in [p]. *)
Fixpoint blank_runs (p : ascii -> bool) (run : bool) (s : string) : string :=
  match s with
  | "" => ""
  | String c s' =>
      if p c then
        if run then blank_runs p true s'
        else String " " (blank_runs p true s')
      else String c (blank_runs p false s')
  end.

(** [nameKey(s)]. *)
Definition nameKey (s : value) : result string :=
  n <- norm s ;;
  let spaced := blank_runs (fun c => negb (is_key_char c)) false n in
  Ok (blank_runs is_space false (trim spaced)).

(** [fmtSigned(n)]. *)
Definition fmtSigned (n : value) : result string :=
  x <- to_number (n ?? VNum (Fin 0)) ;;
  if num_leb (Fin 0) x then Ok ("+" ++ num_to_string x)
  else Ok (num_to_string x).

(** [guessSystem(payload)]. *)
Definition guessSystem (payload : value) : value :=
  or_else (or_else (or_else payload?."systemId" payload?."actor"?."system"?."id")
                   payload?."actor"?."systemId")
          (VStr "unknown").

(** [actorFromPayload(payload)]. *)
Definition actorFromPayload (payload : value) : value :=
  or_else (or_else (or_else payload?."actor" payload?."data"?."actor")
                   payload?."document")
          payload.

(** [s.replace(/^\.\//, "")]. *)
Definition strip_dot_slash (s : string) : string :=
  if prefix "./" s then drop 2 s else s.

Section Location.

(** [new URL(path, SITE_BASE).toString()], of the browser; it raises on a
    reference it cannot resolve. *)
Variable new_URL : string -> result string.

(** [resolveUrl(pathish)]. *)
Definition resolveUrl (pathish : value) : result string :=
  cleaned <- safeText pathish ;;
  new_URL (strip_dot_slash cleaned).

End Location.

(** ** Spells: the prepared state *)

(** [preparedState(spell)]. *)
Definition preparedState (spell : value) : value :=
  let s := or_else spell?."system" (VObj []) in
  if num_is s?."prepared" 0 || num_is s?."prepared" 1 || num_is s?."prepared" 2
  then s?."prepared"
  else
    let mode := s?."preparation"?."mode" in
    if str_is mode "always" then VNum (of_Z 2)
    else if str_is mode "prepared"
    then (if truthy s?."preparation"?."prepared"
          then VNum (of_Z 1) else VNum (of_Z 0))
    else VNull.

(** [spellPreparedLabel(spell)]. *)
Definition spellPreparedLabel (spell : value) : string :=
  let st := preparedState spell in
  if num_is st 2 then "Always prepared"
  else if num_is st 1 then "Prepared"
  else if num_is st 0 then "Not prepared"
  else "".

(** The test of the spell list, for the [mode] the selector holds: the
    function given to [spells.filter] in [spellsFilterNode]. *)
Definition spell_shown (mode : string) (s : value) : bool :=
  let st := preparedState s in
  if String.eqb mode "all" then true
  else if String.eqb mode "prepared" then num_is st 1 || num_is st 2
  else if String.eqb mode "always" then num_is st 2
  else if String.eqb mode "not" then num_is st 0
  else true.

(** ** Features: the common actions that are left out *)

(** The names listed in the source. *)
Definition filtered_names : list string :=
  [ "hide"; "search"; "attack"; "check cover"; "dash"; "disengage";
    "grapple"; "knock out"; "magic"; "ready"; "ready spell"; "stabilise";
    "study"; "underwater"; "dodge"; "fall"; "help"; "influence"; "mount";
    "ready action"; "shove"; "squeeze"; "suffocation" ].

(** [FILTERED_FEATURES]: the names, each through [nameKey]. *)
Definition FILTERED_FEATURES : result (list string) :=
  mapM (fun s => nameKey (VStr s)) filtered_names.

(** [shouldHideFeature(item)]. *)
Definition shouldHideFeature (item : value) : result bool :=
  set <- FILTERED_FEATURES ;;
  k <- nameKey item?."name" ;;
  Ok (existsb (String.eqb k) set).

(** ** The search corpus *)

(** The array [bits] of [extractSearchCorpus], before its falsy members are
    filtered out. *)
Definition search_bits (payload : value) : result (list value) :=
  let actor := actorFromPayload payload in
  let sys := or_else actor?."system" (VObj []) in
  items <- iterate (or_else actor?."items" (VArr [])) ;;
  Ok ([ actor?."name"; sys?."details"?."class"; sys?."details"?."race";
        sys?."details"?."background" ]
      ++ map (fun it => it?."name") items)%list.

(** [list.filter(Boolean).join(sep)]: the members that stay are truthy, so
    each one is turned into its text. *)
Definition join_truthy (sep : string) (l : list value) : result string :=
  parts <- mapM to_string (filter truthy l) ;;
  Ok (join_with sep parts).

(** [extractSearchCorpus(payload)]. *)
Definition extractSearchCorpus (payload : value) : result string :=
  bits <- search_bits payload ;;
  text <- join_truthy " " bits ;;
  norm (VStr text).

(** ** The line under a name in the roster *)

Record Meta : Type := {
  line1 : value;
  line2 : string;
  init : value
}.

(** [defaultMeta(actor)]; the object has no [init]. *)
Definition defaultMeta (actor : value) : Meta :=
  {| line1 := or_else actor?."type" (VStr "Actor");
     line2 := "Snapshot";
     init := VUndef |}.

Section RosterLine.

Variable run_function : string -> result value.

(** The three separators of the source hold code units above 255 or are
    otherwise not letters of the model: the bullet between blanks, the dash
    that stands for a missing number, and the middle dot between two pairs
    of blanks. *)
Variables (BULLET DASH MIDDOT : string).

(** [dnd5eMeta(actor)]. *)
Definition dnd5eMeta (actor : value) : result Meta :=
  let sys := or_else actor?."system" (VObj []) in
  let hp := sys?."attributes"?."hp" in
  let init := sys?."attributes"?."init" in
  items <- items_of actor ;;
  let classes := filter (fun i => str_is i?."type" "class") items in
  lvl <- totalLevel actor ;;
  let level := or_else (VNum lvl) (VStr "") in
  classNames <- join_truthy ", " (map (fun c => c?."name") classes) ;;
  derived <- dnd5eDerived actor ;;
  acValue <- computeAC run_function actor derived ;;
  lv <- (if truthy level then s <- to_string level ;; Ok ("Lv " ++ s)
         else Ok "") ;;
  l1 <- join_truthy BULLET
          [ or_else (or_else (VStr classNames) sys?."details"?."class")
                    (VStr "Character");
            VStr lv ] ;;
  hpValue <- to_string (hp?."value" ?? VStr DASH) ;;
  hpMax <- to_string (hp?."max" ?? VStr DASH) ;;
  pb <- fmtSigned (VNum (prof derived)) ;;
  Ok {| line1 := VStr l1;
        line2 := join_with MIDDOT
                   [ "AC " ++ (if num_finite acValue
                               then num_to_string acValue else DASH);
                     "HP " ++ hpValue ++ "/" ++ hpMax;
                     "PB " ++ pb ];
        init := init?."mod" ?? init?."total" ?? init?."value"
                ?? VNum (m_dex (abilityMods derived)) |}.

(** [getMeta(payload)]. *)
Definition getMeta (payload : value) : result Meta :=
  let actor := actorFromPayload payload in
  let sysId := guessSystem payload in
  if str_is sysId "dnd5e" then dnd5eMeta actor
  else Ok (defaultMeta actor).

End RosterLine.

(* ================================================================== *)
(** * The manifest builder *)
(* ================================================================== *)

(** The script [tools/build-manifest.mjs], up to the sort that closes it:
    the order of the entries written is that of [localeCompare], which
    belongs to the engine. *)
Module BuildManifest.

Record Entry : Type := {
  name : value;
  file : string
}.

(** The files kept from the listing of the directory:
    [f.toLowerCase().endsWith(".json")]. *)
Definition is_json (f : string) : bool :=
  ends_with ".json" (toLowerCase f).

(** [f.replace(/\.json$/i, "")]. *)
Definition stem (f : string) : string :=
  if ends_with ".json" (map_string lower f)
  then take (String.length f - 5) f else f.

(** [payload?.actor || payload?.data?.actor || payload]. *)
Definition actor (payload : value) : value :=
  or_else (or_else payload?."actor" payload?."data"?."actor") payload.

(** The entry pushed for the file [f] once its text is parsed. *)
Definition entry (f : string) (payload : value) : Entry :=
  {| name := or_else (actor payload)?."name" (VStr (stem f));
     file := "./data/actors/" ++ f |}.

Section Run.

(** [JSON.parse], of the engine. *)
Variable JSON_parse : string -> result value.

(** [fs.readFileSync(path.join(inDir, f), "utf8")], by the name [f] of the
    file; it raises on what cannot be read. *)
Variable readFileSync : string -> result string.

(** The body of the loop: the read is outside the [try], the parse and the
    push inside. *)
Definition step (manifest : list Entry) (f : string) : result (list Entry) :=
  raw <- readFileSync f ;;
  match JSON_parse raw with
  | Ok payload => Ok (manifest ++ [entry f payload])%list
  | Throw => Ok manifest
  end.

(** The array [manifest] when the loop is over, for the listing of the
    directory. *)
Definition manifest (listing : list string) : result (list Entry) :=
  foldM step (filter is_json listing) [].

End Run.

End BuildManifest.

(* ================================================================== *)
(** * Vocabulary of the specification *)
(* ================================================================== *)

Definition sum_Z (l : list Z) : Z := fold_left Z.add l 0%Z.

(** What [parseFlatBonus] makes of the text of a value that is neither
    nullish nor a number. *)
Definition flat_of_text (s : string) : num :=
  if has_d_digit s then Fin 0
  else of_Z (sum_Z (map Z_of_signed (signed_ints s))).

(** Dice notation as the specification words it: a digit, the letter d of
    either case, and another digit. *)
Fixpoint dice_notation (s : string) : bool :=
  match s with
  | "" => false
  | String a s' =>
      (is_digit a &&
       match s' with
       | String b (String c _) => is_d b && is_digit c
       | _ => false
       end)
      || dice_notation s'
  end.

(** A match of [/[+-]?\d+/]: an optional sign before one digit or more. *)
Definition signed_int_shape (m : string) : bool :=
  match m with
  | "" => false
  | String c r =>
      if is_sign c then negb (is_empty r) && forall_string is_digit r
      else forall_string is_digit m
  end.

(** A value every part of which turns into a primitive: no object in it
    carries a [toString] property of its own. *)
Fixpoint plain (v : value) : bool :=
  match v with
  | VArr l => forallb plain l
  | VObj kv =>
      negb (has_key "toString" kv) && forallb (fun p => plain (snd p)) kv
  | _ => true
  end.

(** The effects an item hands to the character. *)
Definition item_effects (it : value) : list value :=
  match isItemActiveForBonuses it, it?."effects" with
  | Ok true, VArr effects => filter transfers effects
  | _, _ => []
  end.

(** The [items] of a document are missing, falsy, or an array. *)
Definition items_listed (actor : value) : bool :=
  negb (truthy actor?."items") || isArray actor?."items".

(** A finite number that is an integer. *)
Definition integral (n : num) : Prop := exists z : Z, n = of_Z z.

(** A value that is a number. *)
Definition is_number (v : value) : bool :=
  match v with
  | VNum _ => true
  | _ => false
  end.

(** The six abilities of the ruleset. *)
Definition ability_names : list string :=
  [ "str"; "dex"; "con"; "int"; "wis"; "cha" ].

(** The modifier of one of the six abilities. *)
Definition modifier (m : AbilityMods) (a : string) : option num :=
  if String.eqb a "str" then Some (m_str m)
  else if String.eqb a "dex" then Some (m_dex m)
  else if String.eqb a "con" then Some (m_con m)
  else if String.eqb a "int" then Some (m_int m)
  else if String.eqb a "wis" then Some (m_wis m)
  else if String.eqb a "cha" then Some (m_cha m)
  else None.

(** The proficiency component of a rank, for an integer bonus [p]: nothing
    below or at rank 0 and at a rank that is not finite, [floor(rank * p)]
    above. *)
Definition prof_part (rank : num) (p : Z) : num :=
  match rank with
  | Fin r => if Qle_bool r 0 then Fin 0 else of_Z (Qfloor (r * inject_Z p))
  | _ => Fin 0
  end.

(** The base of a skill: the modifier of its ability when that is one of
    the six, and 0. *)
Definition base_of (m : AbilityMods) (ability : value) : num :=
  match ability with
  | VStr a =>
      match modifier m a with
      | Some n => n
      | None => Fin 0
      end
  | _ => Fin 0
  end.

(** An ability that is absent (falsy), or a name that no object inherits. *)
Definition ordinary_ability (ability : value) : bool :=
  match ability with
  | VStr a => negb (inherited a)
  | _ => negb (truthy ability)
  end.

(** Six modifiers that are integers. *)
Definition integral_mods (m : AbilityMods) : Prop :=
  integral (m_str m) /\ integral (m_dex m) /\ integral (m_con m) /\
  integral (m_int m) /\ integral (m_wis m) /\ integral (m_cha m).

(** A number, or a text. *)
Definition number_or_text (v : value) : bool :=
  match v with
  | VNum _ | VStr _ => true
  | _ => false
  end.

(** A finite number, or a text. *)
Definition finite_or_text (v : value) : bool :=
  match v with
  | VNum n => num_finite n
  | VStr _ => true
  | _ => false
  end.

(** The characters a formula may hold, beside white space, once its tokens
    are replaced. *)
Definition arith_symbols : list ascii :=
  list_ascii_of_string "0123456789+-*/().".

(** A class item. *)
Definition is_class (i : value) : bool := str_is i?."type" "class".

(** The levels a class item states, read as an integer. *)
Definition class_levels (c : value) : Z :=
  match c?."system"?."levels" with
  | VNum (Fin q) => Qfloor q
  | _ => 0%Z
  end.

(** [Number.isNaN] on a number. *)
Definition is_nan (n : num) : bool :=
  match n with
  | NaN => true
  | _ => false
  end.

(** An item that is worn: [!!i?.system?.equipped]. *)
Definition is_worn (i : value) : bool := truthy i?."system"?."equipped".

(** A worn suit of armour: equipment with a finite armour value that is no
    shield. *)
Definition worn_armour (i : value) : bool :=
  is_worn i && (is_armour_piece i && negb (is_shield i)).

(** The mark by which the best armour is chosen: its base and its magical
    bonus. *)
Definition armour_score (i : value) : result num :=
  base <- to_number (i?."system"?."armor"?."value" ?? VNum (Fin 0)) ;;
  magic <- getArmorMagicBonus i ;;
  Ok (num_add base magic).

(** The form of a key: words of the letters a to z and of digits, with
    one blank between two words and none at either end.  [after_blank]
    tells that a word has to start. *)
Fixpoint key_tail (after_blank : bool) (s : string) : bool :=
  match s with
  | "" => negb after_blank
  | String c s' =>
      if is_key_char c then key_tail false s'
      else (code c =? 32)%N && negb after_blank && key_tail true s'
  end.

Definition key_shape (s : string) : bool := is_empty s || key_tail true s.

(** The form [blank_runs] gives to a text: that of a key, with a blank
    allowed at either end. *)
Fixpoint loose (after_blank : bool) (s : string) : bool :=
  match s with
  | "" => true
  | String c s' =>
      if is_key_char c then loose false s'
      else (code c =? 32)%N && negb after_blank && loose true s'
  end.

(** The effects of the character herself: [actor.effects] when it is an
    array. *)
Definition own_effects (actor : value) : list value :=
  match actor?."effects" with
  | VArr l => l
  | _ => []
  end.

(** A body the guard of the custom formula lets through: an expression
    made of digits, operators, brackets, periods and white space, between
    [return (] and [);]. *)
Definition guarded_body (body : string) : Prop :=
  exists expr, arith_only expr = true /\ body = "return (" ++ expr ++ ");".

(** What the loop of the manifest builder pushes for a file. *)
Definition pushed (JSON_parse : string -> result value)
  (readFileSync : string -> result string) (f : string)
  : list BuildManifest.Entry :=
  match readFileSync f with
  | Ok raw =>
      match JSON_parse raw with
      | Ok payload => [BuildManifest.entry f payload]
      | Throw => []
      end
  | Throw => []
  end.

(** A code unit below 128. *)
Definition is_ascii (c : ascii) : bool := (code c <? 128)%N.

(** An item that may count toward the armour class: it is equipped or
    attuned, or its attunement cannot be read. *)
Definition counts_for_bonuses (it : value) : bool :=
  match isItemActiveForBonuses it with
  | Ok b => b
  | Throw => true
  end.

(* ================================================================== *)
(** * Sample documents *)
(* ================================================================== *)

Module Sample.

Definition int (z : Z) : value := VNum (of_Z z).

Definition change (key : string) (mode : Z) (v : value) : value :=
  VObj [("key", VStr key); ("mode", int mode); ("value", v)].

(** An effect of the character itself, switched off, that would add 1 to
    the armour class. *)
Definition disabled_effect : value :=
  VObj [("disabled", VBool true);
        ("changes", VArr [change "system.attributes.ac.bonus" 2 (int 1)])].

(** A character with that effect and nothing else. *)
Definition disabled_actor : value :=
  VObj [("effects", VArr [disabled_effect])].

(** The same effect carried by an equipped item: there it is left out. *)
Definition disabled_on_item : value :=
  VObj [("items",
         VArr [VObj [("system", VObj [("equipped", VBool true)]);
                     ("effects",
                      VArr [VObj [("disabled", VBool true);
                                  ("transfer", VBool true);
                                  ("changes",
                                   VArr [change "system.attributes.ac.bonus"
                                           2 (int 1)])]])]])].

(** A change in the legacy spelling that overrides the bonus key. *)
Definition legacy_bonus_override : value :=
  change "data.attributes.ac.bonus" 5 (VStr "3").

Definition with_dex (score : Z) : string * value :=
  ("abilities", VObj [("dex", VObj [("value", int score)])]).

Definition armour (base : Z) (extra : list (string * value)) : value :=
  VObj [("type", VStr "equipment");
        ("system",
         VObj [("equipped", VBool true);
               ("armor", VObj (("value", int base) :: extra))])].

(** Leather armour and a ring whose effect adds 1, worn by a character
    whose export states an armour class of 17. *)
Definition ring : value :=
  VObj [("type", VStr "equipment");
        ("system", VObj [("equipped", VBool true)]);
        ("effects",
         VArr [VObj [("transfer", VBool true);
                     ("changes",
                      VArr [change "system.attributes.ac.bonus" 2
                              (VStr "+1")])]])].

Definition explicit_17 : value :=
  VObj [("system",
         VObj [with_dex 16;
               ("attributes", VObj [("ac", VObj [("value", int 17)])])]);
        ("items", VArr [armour 11 []; ring])].

(** Plate armour with a Dex cap of 0, a flat bonus of 1 and a custom
    formula that does not mention the bonus. *)
Definition plate_formula : value :=
  VObj [("system",
         VObj [with_dex 18;
               ("attributes",
                VObj [("ac",
                       VObj [("calc", VStr "custom");
                             ("formula",
                              VStr "@attributes.ac.armor + @attributes.ac.dex");
                             ("bonus", int 1)])])]);
        ("items", VArr [armour 18 [("dex", int 0)]])].

(** Armour whose Dex cap is a word. *)
Definition odd_cap : value :=
  VObj [("system", VObj [with_dex 18]);
        ("items", VArr [armour 14 [("dex", VStr "none")]])].

(** The modifiers of a character whose only score is a Dexterity of 18,
    at level 0. *)
Definition dex18 : Derived :=
  {| level := Fin 0; prof := Fin 0;
     abilityMods := {| m_str := Fin 0; m_dex := of_Z 4; m_con := Fin 0;
                       m_int := Fin 0; m_wis := Fin 0; m_cha := Fin 0 |};
     skillTotals := []; passivePrc := VNum (Fin 10) |}.

(** A rogue of level 5: half proficiency in Perception, expertise in
    Stealth with a flat bonus, and Athletics governed by a name that is no
    ability. *)
Definition rogue : value :=
  VObj [("system",
         VObj [with_dex 15;
               ("details", VObj [("level", int 5)]);
               ("skills",
                VObj [("prc", VObj [("ability", VStr "dex");
                                    ("value", VNum (Fin (1 # 2)))]);
                      ("ath", VObj [("ability", VStr "luck");
                                    ("value", int 1)]);
                      ("ste", VObj [("ability", VStr "dex");
                                    ("value", int 2);
                                    ("bonuses",
                                     VObj [("check", VStr "+1 -3")])])])])].

(** What [dnd5eDerived] returns, for a document on which it returns. *)
Definition derived_of (actor : value) : Derived :=
  match dnd5eDerived actor with
  | Ok d => d
  | Throw => dex18
  end.

(** An engine that knows the value of one body and fails on any other. *)
Definition engine_18 (body : string) : result value :=
  if String.eqb body "return (18 + 0);" then Ok (int 18) else Throw.

(** No armour and a Dexterity of 14. *)
Definition unarmoured : value := VObj [("system", VObj [with_dex 14])].

(** Leather armour, a Dexterity of 16 and the ring. *)
Definition leather_and_ring : value :=
  VObj [("system", VObj [with_dex 16]); ("items", VArr [armour 11 []; ring])].

(** An effect of the character that overrides the armour class with 20,
    beside one that adds 2 to the bonus. *)
Definition overridden : value :=
  VObj [("system", VObj [with_dex 16]);
        ("effects",
         VArr [VObj [("changes",
                      VArr [change "system.attributes.ac.value" 5 (int 20)])];
               VObj [("changes",
                      VArr [change "system.attributes.ac.bonus" 2 (int 2)])]])].

(** A custom formula that is a bare 10, beside a flat bonus of 1. *)
Definition bare_formula : value :=
  VObj [("system",
         VObj [("attributes",
                VObj [("ac",
                       VObj [("calc", VStr "custom");
                             ("formula", VStr "10");
                             ("bonus", int 1)])])])].

(** An engine that knows the value of the body that returns 10. *)
Definition engine_10 (body : string) : result value :=
  if String.eqb body "return (10);" then Ok (int 10) else Throw.

(** Items that are an object, not an array. *)
Definition items_object : value := VObj [("items", VObj [])].

(** A level written as the word Infinity. *)
Definition level_infinity : value :=
  VObj [("system", VObj [("details", VObj [("level", VStr "Infinity")])])].

(** Armour whose magical bonus is the word Infinity. *)
Definition infinite_armour : value :=
  VObj [("items", VArr [armour 11 [("magicalBonus", VStr "Infinity")]])].

(** A Strength score that is an object with a [toString] entry. *)
Definition odd_score : value :=
  VObj [("system",
         VObj [("abilities",
                VObj [("str",
                       VObj [("value", VObj [("toString", VNull)])])])])].

(** An engine that fails on every body. *)
Definition no_engine (body : string) : result value := Throw.

(** An exported payload: a paladin with a mace and a shield. *)
Definition galahad : value :=
  VObj [("systemId", VStr "dnd5e");
        ("actor",
         VObj [("name", VStr " Sir GALAHAD ");
               ("system",
                VObj [("details",
                       VObj [("class", VStr "Paladin");
                             ("race", VStr "Human")])]);
               ("items",
                VArr [VObj [("name", VStr "Mace +1"); ("type", VStr "weapon")];
                      VObj [("type", VStr "loot")];
                      VObj [("name", VStr "Shield");
                            ("type", VStr "equipment")]])])].

(** A directory with two exports, a file that is no export and a file
    that does not parse; the parser knows the text of the two exports. *)
Definition listing : list string :=
  ["Galahad.JSON"; "notes.txt"; "broken.json"; "anon.json"].

Definition read_file (f : string) : result string :=
  if String.eqb f "Galahad.JSON" then Ok "galahad"
  else if String.eqb f "broken.json" then Ok "{"
  else if String.eqb f "anon.json" then Ok "anon"
  else Throw.

Definition parse (raw : string) : result value :=
  if String.eqb raw "galahad" then Ok galahad
  else if String.eqb raw "anon" then Ok (VObj [("document", VObj [])])
  else Throw.

(** A browser whose site is at the root of a host. *)
Definition site_url (path : string) : result string :=
  Ok ("https://vault.example/" ++ path).

(** Plate armour left in the pack, with an effect that would add 2. *)
Definition spare_plate : value :=
  VObj [("type", VStr "equipment");
        ("system", VObj [("equipped", VBool false);
                         ("armor", VObj [("value", int 18)])]);
        ("effects",
         VArr [VObj [("transfer", VBool true);
                     ("changes",
                      VArr [change "system.attributes.ac.bonus" 2 (int 2)])]])].

(** Leather armour, the ring, and the plate armour in the pack. *)
Definition with_spare : value :=
  VObj [("system", VObj [with_dex 16]);
        ("items", VArr [armour 11 []; spare_plate; ring])].

(** Two suits of armour worn at once and a shield: chain mail, studded
    leather with a magical bonus of 1, and a shield of 2. *)
Definition two_suits : value :=
  VObj [("items",
         VArr [armour 13 [("magicalBonus", int 1)];
               armour 16 [];
               VObj [("type", VStr "equipment");
                     ("system",
                      VObj [("equipped", VBool true);
                            ("type", VObj [("value", VStr "shield")]);
                            ("armor", VObj [("value", int 2)])])]])].

(** A fighter of level 3 who is a rogue of level 2, with a stale level of
    1 in the details and a feat among the items. *)
Definition multiclass : value :=
  VObj [("system", VObj [("details", VObj [("level", int 1)])]);
        ("items",
         VArr [VObj [("type", VStr "class"); ("name", VStr "Fighter");
                     ("system", VObj [("levels", int 3)])];
               VObj [("type", VStr "feat"); ("name", VStr "Alert")];
               VObj [("type", VStr "class"); ("name", VStr "Rogue");
                     ("system", VObj [("levels", int 2)])]])].

End Sample.
(* ================================================================== *)
(** * Properties *)
(* ================================================================== *)

Unset Implicit Arguments.

#[local] Arguments Qred : simpl never.
#[local] Arguments Qfloor : simpl never.
#[local] Arguments Qplus : simpl never.
#[local] Arguments Qmult : simpl never.
#[local] Arguments Qdiv : simpl never.
#[local] Arguments Qopp : simpl never.
#[local] Arguments inject_Z : simpl never.

Ltac ascii_cases c :=
  destruct c as [[] [] [] [] [] [] [] []]; vm_compute; intros;
  try reflexivity; try discriminate.

(** ** Arithmetic of the number model *)

Lemma Qred_inject_Z (z : Z) : Qred (inject_Z z) = inject_Z z.
Proof.
  unfold Qred, inject_Z.
  pose proof (Z.ggcd_gcd z 1) as Hg.
  pose proof (Z.ggcd_correct_divisors z 1) as Hd.
  destruct (Z.ggcd z 1) as [g [a b]]. simpl in *.
  rewrite Z.gcd_1_r in Hg. subst g.
  destruct Hd as [Ha Hb].
  assert (Ea : a = z) by lia. assert (Eb : b = 1%Z) by lia.
  rewrite Ea, Eb. reflexivity.
Qed.

Lemma Qred_eq_Z (q : Q) (z : Z) : (q == inject_Z z)%Q -> Qred q = inject_Z z.
Proof.
  intro H. rewrite (Qred_complete _ _ H). apply Qred_inject_Z.
Qed.

Lemma num_add_of_Z (a b : Z) : num_add (of_Z a) (of_Z b) = of_Z (a + b).
Proof.
  unfold of_Z. simpl. f_equal. apply Qred_eq_Z.
  rewrite inject_Z_plus. reflexivity.
Qed.

Lemma num_mul_of_Z (a b : Z) : num_mul (of_Z a) (of_Z b) = of_Z (a * b).
Proof.
  unfold of_Z. simpl. f_equal. apply Qred_eq_Z.
  rewrite inject_Z_mult. reflexivity.
Qed.

Lemma Qfloor_red (q : Q) : Qfloor (Qred q) = Qfloor q.
Proof. apply Qfloor_comp. apply Qred_correct. Qed.

(** An integer over a positive integer, floored, is the integer quotient. *)
Lemma Qfloor_div_Z (a : Z) (d : positive) :
  Qfloor (inject_Z a / inject_Z (Zpos d)) = (a / Zpos d)%Z.
Proof.
  assert (H : (inject_Z a / inject_Z (Zpos d) == a # d)%Q).
  { unfold Qdiv, Qinv, Qmult, Qeq, inject_Z. simpl. lia. }
  rewrite (Qfloor_comp _ _ H). reflexivity.
Qed.

Lemma Qle_bool_false (x y : Q) : Qle_bool x y = false <-> (y < x)%Q.
Proof.
  split; intro H.
  - apply Qnot_le_lt. intro Hle. apply Qle_bool_iff in Hle. congruence.
  - destruct (Qle_bool x y) eqn:E; [|reflexivity].
    apply Qle_bool_iff in E. exfalso. exact (Qlt_not_le _ _ H E).
Qed.

(** [floor((x - a) / d)] for literals [a] and [d], as the code computes it. *)
Lemma floor_sub_div (x : Q) (a d : positive) :
  num_floor (num_div (num_sub (Fin x) (Fin (Zpos a # 1))) (Fin (Zpos d # 1)))
  = of_Z (Qfloor ((x - (Zpos a # 1)) / (Zpos d # 1))).
Proof.
  unfold num_sub, num_neg, num_add, num_div.
  change (is_zero (Zpos d # 1)) with false. cbv iota.
  unfold num_floor. apply (f_equal of_Z).
  rewrite Qfloor_red. apply Qfloor_comp.
  rewrite Qred_correct. unfold Qminus. rewrite (Qred_correct (- _)). reflexivity.
Qed.

(** ** Ability modifier *)

Lemma abilityMod_finite (q : Q) :
  abilityMod (VNum (Fin q)) = Ok (of_Z (Qfloor ((q - 10) / 2))).
Proof.
  unfold abilityMod. cbn [to_number bind num_finite negb].
  f_equal. apply (floor_sub_div q 10 2).
Qed.

Lemma abilityMod_integer (z : Z) :
  abilityMod (VNum (of_Z z)) = Ok (of_Z ((z - 10) / 2)).
Proof.
  unfold of_Z at 1. rewrite abilityMod_finite. do 2 f_equal.
  rewrite <- (Qfloor_div_Z (z - 10) 2). apply Qfloor_comp.
  unfold Z.sub. rewrite inject_Z_plus, inject_Z_opp. reflexivity.
Qed.

Lemma abilityMod_coerces (v : value) (n : num) :
  to_number v = Ok n -> abilityMod v = abilityMod (VNum n).
Proof. intro H. unfold abilityMod. rewrite H. reflexivity. Qed.

Lemma abilityMod_not_finite (n : num) :
  num_finite n = false -> abilityMod (VNum n) = Ok (Fin 0).
Proof. destruct n; simpl; intro H; try reflexivity; discriminate. Qed.




(** ** Proficiency bonus *)

Lemma proficiencyBonus_from_one (q : Q) :
  (1 <= q)%Q ->
  proficiencyBonus (VNum (Fin q)) = Ok (of_Z (2 + Qfloor ((q - 1) / 4))).
Proof.
  intro H. unfold proficiencyBonus.
  cbn [to_number bind num_finite negb orb num_leb].
  assert (E : Qle_bool q 0 = false).
  { apply Qle_bool_false. apply Qlt_le_trans with (y := 1%Q); [reflexivity|exact H]. }
  rewrite E. f_equal.
  rewrite (floor_sub_div q 1 4).
  change (Fin 2) with (of_Z 2). apply num_add_of_Z.
Qed.

Lemma proficiencyBonus_nonpositive (q : Q) :
  (q <= 0)%Q -> proficiencyBonus (VNum (Fin q)) = Ok (Fin 0).
Proof.
  intro H. unfold proficiencyBonus.
  cbn [to_number bind num_finite negb orb num_leb].
  apply Qle_bool_iff in H. rewrite H. reflexivity.
Qed.

Lemma proficiencyBonus_not_finite (l : num) :
  num_finite l = false -> proficiencyBonus (VNum l) = Ok (Fin 0).
Proof. destruct l; simpl; intro H; try reflexivity; discriminate. Qed.

Lemma Qfloor_between (q : Q) (z : Z) :
  (inject_Z z <= q)%Q -> (q < inject_Z (z + 1))%Q -> Qfloor q = z.
Proof.
  intros Hlo Hhi.
  pose proof (Qfloor_le q) as H1. pose proof (Qlt_floor q) as H2.
  assert (A : (inject_Z z < inject_Z (Qfloor q + 1))%Q) by
    (eapply Qle_lt_trans; eassumption).
  assert (B : (inject_Z (Qfloor q) < inject_Z (z + 1))%Q) by
    (eapply Qle_lt_trans; eassumption).
  rewrite <- Zlt_Qlt in A, B. lia.
Qed.

Lemma proficiencyBonus_tier (q : Q) (t : Z) :
  (0 <= t)%Z ->
  (inject_Z (4 * t + 1) <= q)%Q -> (q <= inject_Z (4 * t + 4))%Q ->
  proficiencyBonus (VNum (Fin q)) = Ok (of_Z (2 + t)).
Proof.
  intros Ht Hlo Hhi.
  rewrite proficiencyBonus_from_one.
  - do 3 f_equal. apply Qfloor_between.
    + apply Qle_shift_div_l; [reflexivity|].
      apply (Qplus_le_l _ _ 1). ring_simplify.
      eapply Qle_trans; [|exact Hlo].
      rewrite inject_Z_plus, inject_Z_mult. ring_simplify. apply Qle_refl.
    + apply Qlt_shift_div_r; [reflexivity|].
      apply (Qplus_lt_l _ _ 1). ring_simplify.
      eapply Qle_lt_trans; [exact Hhi|].
      rewrite !inject_Z_plus, inject_Z_mult. ring_simplify.
      apply Qplus_lt_r. reflexivity.
  - eapply Qle_trans; [|exact Hlo].
    change 1%Q with (inject_Z 1). rewrite <- Zle_Qle. lia.
Qed.



(** ** Flat bonuses *)

Lemma space_not_digit c : is_space c = true -> is_digit c = false.
Proof. ascii_cases c. Qed.

Lemma space_not_sign c : is_space c = true -> is_sign c = false.
Proof. ascii_cases c. Qed.

Lemma space_not_d c : is_space c = true -> is_d c = false.
Proof. ascii_cases c. Qed.

Lemma sign_not_digit c : is_sign c = true -> is_digit c = false.
Proof. ascii_cases c. Qed.

Lemma is_empty_true s : is_empty s = true -> s = "".
Proof. destruct s; simpl; congruence. Qed.

(** *** Trimming leaves the matches of both patterns alone *)

Lemma next_is_digit_trim_end s :
  next_is is_digit (trim_end s) = next_is is_digit s.
Proof.
  destruct s as [|c s]; simpl; [reflexivity|].
  destruct (is_space c) eqn:Hc; simpl; [|reflexivity].
  destruct (is_empty (trim_end s)); simpl; [|reflexivity].
  symmetry. now apply space_not_digit.
Qed.

Lemma has_d_digit_trim_end s : has_d_digit (trim_end s) = has_d_digit s.
Proof.
  induction s as [|c s IH]; simpl; [reflexivity|].
  destruct (is_space c && is_empty (trim_end s)) eqn:E.
  - apply andb_true_iff in E as [Hc He].
    apply is_empty_true in He. rewrite He in IH. simpl in IH.
    rewrite <- IH, (space_not_d _ Hc). reflexivity.
  - simpl. now rewrite next_is_digit_trim_end, IH.
Qed.

Lemma has_d_digit_trim_start s : has_d_digit (trim_start s) = has_d_digit s.
Proof.
  induction s as [|c s IH]; simpl; [reflexivity|].
  destruct (is_space c) eqn:Hc; [|reflexivity].
  now rewrite IH, (space_not_d _ Hc).
Qed.

Lemma has_d_digit_trim s : has_d_digit (trim s) = has_d_digit s.
Proof.
  unfold trim. now rewrite has_d_digit_trim_end, has_d_digit_trim_start.
Qed.

Lemma signed_ints_from_trim_end s : forall cur,
  signed_ints_from cur (trim_end s) = signed_ints_from cur s.
Proof.
  induction s as [|c s IH]; intro cur; simpl; [reflexivity|].
  destruct (is_space c && is_empty (trim_end s)) eqn:E.
  - apply andb_true_iff in E as [Hc He].
    apply is_empty_true in He.
    rewrite (space_not_digit _ Hc), (space_not_sign _ Hc). simpl.
    rewrite <- IH, He. simpl. now rewrite app_nil_r.
  - simpl. now rewrite next_is_digit_trim_end, !IH.
Qed.

Lemma signed_ints_trim_start s :
  signed_ints (trim_start s) = signed_ints s.
Proof.
  unfold signed_ints.
  induction s as [|c s IH]; simpl; [reflexivity|].
  destruct (is_space c) eqn:Hc; [|reflexivity].
  rewrite (space_not_digit _ Hc), (space_not_sign _ Hc). simpl. exact IH.
Qed.

Lemma signed_ints_trim s : signed_ints (trim s) = signed_ints s.
Proof.
  rewrite <- (signed_ints_trim_start s).
  unfold trim, signed_ints. apply signed_ints_from_trim_end.
Qed.

(** *** The sum of the matches *)

Lemma filter_finite_of_Z (l : list Z) :
  filter num_finite (map of_Z l) = map of_Z l.
Proof.
  induction l as [|z l IH]; simpl; [reflexivity|]. now rewrite IH.
Qed.

Lemma fold_add_of_Z (l : list Z) : forall a,
  fold_left num_add (map of_Z l) (of_Z a) = of_Z (fold_left Z.add l a).
Proof.
  induction l as [|z l IH]; intro a; cbn [fold_left map]; [reflexivity|].
  now rewrite num_add_of_Z, IH.
Qed.

Lemma flat_of_text_trim (s : string) :
  (let s0 := trim s in
   if is_empty s0 then Fin 0
   else if has_d_digit s0 then Fin 0
   else fold_left num_add
          (filter num_finite
             (map (fun n => of_Z (Z_of_signed n)) (signed_ints s0)))
          (Fin 0))
  = flat_of_text s.
Proof.
  cbv zeta. unfold flat_of_text.
  rewrite has_d_digit_trim, signed_ints_trim.
  rewrite <- (map_map Z_of_signed of_Z), filter_finite_of_Z.
  change (Fin 0) with (of_Z 0). rewrite fold_add_of_Z.
  destruct (is_empty (trim s)) eqn:He; [|reflexivity].
  apply is_empty_true in He.
  pose proof (has_d_digit_trim s) as Hd.
  pose proof (signed_ints_trim s) as Hi.
  rewrite He in Hd, Hi. simpl in Hd, Hi. rewrite <- Hd, <- Hi. reflexivity.
Qed.

Lemma parseFlatBonus_text (v : value) (s : string) :
  nullish v = false -> is_number v = false -> to_string v = Ok s ->
  parseFlatBonus v = Ok (flat_of_text s).
Proof.
  intros Hn Hv Hs. rewrite <- flat_of_text_trim. cbv zeta.
  unfold parseFlatBonus. rewrite Hn.
  destruct v; try discriminate; cbv iota; rewrite Hs; cbn [bind]; cbv zeta;
    (destruct (is_empty (trim s)); [reflexivity|]);
    (destruct (has_d_digit (trim s)); [reflexivity|]);
    destruct (signed_ints (trim s)); reflexivity.
Qed.

Lemma parseFlatBonus_string (s : string) :
  parseFlatBonus (VStr s) = Ok (flat_of_text s).
Proof. now apply parseFlatBonus_text. Qed.

Lemma parseFlatBonus_number (n : num) :
  parseFlatBonus (VNum n) = Ok (if num_finite n then n else Fin 0).
Proof. reflexivity. Qed.

(** *** The two patterns, read as statements on the text *)

Lemma has_d_digit_iff (s : string) :
  has_d_digit s = true <->
  exists a c d b,
    s = a ++ String c (String d b) /\ is_d c = true /\ is_digit d = true.
Proof.
  induction s as [|x s IH]; simpl.
  - split; [discriminate|].
    intros (a & c & d & b & E & _). destruct a; simpl in E; discriminate.
  - rewrite orb_true_iff, IH, andb_true_iff. split.
    + intros [[Hx Hn]|(a & c & d & b & E & Hc & Hd)].
      * destruct s as [|y s]; [discriminate|].
        exists "", x, y, s. auto.
      * exists (String x a), c, d, b. simpl. rewrite E. auto.
    + intros (a & c & d & b & E & Hc & Hd).
      destruct a as [|x' a]; simpl in E; inversion E; subst.
      * left. auto.
      * right. exists a, c, d, b. auto.
Qed.

Lemma forall_string_snoc p s c :
  forall_string p (snoc s c) = forall_string p s && p c.
Proof.
  unfold snoc. induction s as [|x s IH]; simpl.
  - now rewrite andb_true_r.
  - now rewrite IH, andb_assoc.
Qed.

Lemma is_empty_snoc s c : is_empty (snoc s c) = false.
Proof. destruct s; reflexivity. Qed.

Lemma shape_snoc m c :
  signed_int_shape m = true \/ (exists g, m = String g "" /\ is_sign g = true)
  \/ m = "" ->
  is_digit c = true -> signed_int_shape (snoc m c) = true.
Proof.
  intros [H|[(g & Eg & Hg)|Em]] Hc; subst.
  - destruct m as [|x r]; [discriminate|].
    change (snoc (String x r) c) with (String x (snoc r c)).
    cbn [signed_int_shape] in *.
    destruct (is_sign x) eqn:Hx.
    + apply andb_true_iff in H as [_ H].
      rewrite is_empty_snoc, forall_string_snoc, H, Hc. reflexivity.
    + cbn [forall_string] in *. apply andb_true_iff in H as [Hd H].
      rewrite Hd, forall_string_snoc, H, Hc. reflexivity.
  - simpl. now rewrite Hg, Hc.
  - simpl. rewrite Hc. destruct (is_sign c) eqn:E; [|reflexivity].
    apply sign_not_digit in E. congruence.
Qed.

(** Every match has the shape of a signed integer. *)
Lemma signed_ints_from_shape (s : string) : forall cur,
  signed_int_shape cur = true
  \/ ((exists g, cur = String g "" /\ is_sign g = true)
      /\ next_is is_digit s = true)
  \/ cur = "" ->
  Forall (fun m => signed_int_shape m = true) (signed_ints_from cur s).
Proof.
  induction s as [|c s IH]; intros cur Hcur; simpl.
  - destruct Hcur as [H|[[_ H]| ->]]; [|discriminate|constructor].
    unfold flush. destruct cur; [discriminate|]. simpl. auto.
  - destruct (is_digit c) eqn:Hc.
    + apply IH. left. apply shape_snoc; [|exact Hc].
      destruct Hcur as [H|[[H _]|H]]; auto.
    + assert (F : Forall (fun m => signed_int_shape m = true) (flush cur)).
      { destruct Hcur as [H|[[_ H]| ->]]; [| simpl in H; congruence | constructor].
        unfold flush. destruct cur; [discriminate|]. simpl. auto. }
      destruct (is_sign c && next_is is_digit s) eqn:E.
      * apply Forall_app; split; [exact F|]. apply IH.
        apply andb_true_iff in E as [Hs Hn].
        right. left. split; [eauto|exact Hn].
      * apply Forall_app; split; [exact F|]. apply IH.
        right. right. reflexivity.
Qed.

Lemma signed_ints_shape (s : string) :
  Forall (fun m => signed_int_shape m = true) (signed_ints s).
Proof. apply signed_ints_from_shape. right. right. reflexivity. Qed.




(** ** Active effects *)

Lemma drop_S (i : nat) : forall s, drop (S i) s = drop 1 (drop i s).
Proof.
  induction i as [|i IH]; intros [|c s]; try reflexivity.
  change (drop (S (S i)) (String c s)) with (drop (S i) s).
  change (drop (S i) (String c s)) with (drop i s). apply IH.
Qed.

Lemma ends_with_drop (suffix s : string) :
  ends_with suffix s = true ->
  (String.length suffix <= String.length s)%nat /\
  drop (String.length s - String.length suffix) s = suffix.
Proof.
  unfold ends_with. intro H. apply andb_true_iff in H as [Hl He].
  split; [now apply Nat.leb_le|now apply String.eqb_eq].
Qed.

(** No key is both a value or flat target and a bonus target. *)
Lemma isACValue_not_bonus (key : string) :
  isACValue key = true -> isACBonus key = false.
Proof.
  unfold isACValue, isACBonus. set (k := map_string lower key).
  intro H. destruct (ends_with "system.attributes.ac.bonus" k) eqn:B;
    [exfalso|reflexivity].
  apply ends_with_drop in B as [Bl Bd]. simpl String.length in *.
  apply orb_true_iff in H as [H|H]; apply ends_with_drop in H as [Hl Hd];
    simpl String.length in *.
  - rewrite Bd in Hd. discriminate.
  - replace (String.length k - 25)%nat with (S (String.length k - 26)) in Hd
      by lia.
    rewrite drop_S, Bd in Hd. discriminate.
Qed.

Lemma add_not_override (mode : num) :
  num_eqb mode AE_MODES.ADD = true -> num_eqb mode AE_MODES.OVERRIDE = false.
Proof.
  destruct mode; simpl; try discriminate. intro H.
  apply Qeq_bool_iff in H.
  destruct (Qeq_bool q 5) eqn:E; [|reflexivity].
  apply Qeq_bool_iff in E. rewrite H in E. discriminate.
Qed.



(** A change whose key is missing or empty is skipped. *)
Lemma apply_change_no_key (st : ACEffects) (ch : value) :
  safeText ch?."key" = Ok "" -> apply_change st ch = Ok st.
Proof. intro H. unfold apply_change. rewrite H. reflexivity. Qed.

(** *** Which effects are collected *)

Lemma foldM_collect (f : list value -> value -> result (list value))
  (sel : value -> list value) (items : list value) :
  (forall out it out', f out it = Ok out' -> out' = (out ++ sel it)%list) ->
  forall out0 out,
    foldM f items out0 = Ok out ->
    forall ef, In ef out <->
               In ef out0 \/ exists it, In it items /\ In ef (sel it).
Proof.
  intro Hf. induction items as [|it items IH]; intros out0 out H ef.
  - simpl in H. inversion H; subst. split; [auto|].
    intros [?|(it & [] & _)]. assumption.
  - simpl in H. destruct (f out0 it) as [out1|] eqn:E; [|discriminate].
    simpl in H. rewrite (IH _ _ H ef), (Hf _ _ _ E), in_app_iff.
    split.
    + intros [[?|?]|(it' & ? & ?)]; eauto.
      * right. exists it. simpl. auto.
      * right. exists it'. simpl. auto.
    + intros [?|(it' & [->|?] & ?)]; eauto.
Qed.

(** The effects that reach the armour class are those of the character, all
    of them, and those effects of an equipped or attuned item that are
    truthy, not disabled and flagged as transferred. *)
Lemma collectTransferEffects_members (actor : value) (items out : list value) :
  iterate (or_else actor?."items" (VArr [])) = Ok items ->
  collectTransferEffects actor = Ok out ->
  forall ef,
    In ef out <->
    (exists l, actor?."effects" = VArr l /\ In ef l) \/
    (exists it effects,
        In it items /\ isItemActiveForBonuses it = Ok true /\
        it?."effects" = VArr effects /\ In ef effects /\ transfers ef = true).
Proof.
  intros Hi Hc ef. unfold collectTransferEffects in Hc. rewrite Hi in Hc.
  cbn [bind] in Hc.
  match type of Hc with foldM ?f _ _ = _ =>
    assert (Hf : forall o it o', f o it = Ok o' -> o' = (o ++ item_effects it)%list)
  end.
  { intros o it o' H. unfold item_effects.
    destruct (isItemActiveForBonuses it) as [[|]|]; simpl in H.
    - destruct (it?."effects"); inversion H; now rewrite ?app_nil_r.
    - inversion H. now rewrite app_nil_r.
    - discriminate. }
  rewrite (foldM_collect _ item_effects items Hf _ _ Hc ef).
  split; intros [H|H].
  - left. destruct (actor?."effects"); try contradiction. eauto.
  - right. destruct H as (it & Hin & He). unfold item_effects in He.
    destruct (isItemActiveForBonuses it) as [[|]|] eqn:A; try contradiction.
    destruct (it?."effects") eqn:Ef; try contradiction.
    apply filter_In in He as [? ?]. exists it, l. auto.
  - left. destruct H as (l & -> & H). exact H.
  - right. destruct H as (it & effects & Hin & A & Ef & He & Ht).
    exists it. split; [exact Hin|]. unfold item_effects. rewrite A, Ef.
    apply filter_In. auto.
Qed.

(** C1 at the input on which the code departs from it: an effect of the
    character that is disabled is collected all the same and adds its 1 to
    the armour class, 15 instead of 14 on a bare character with a Dex
    modifier of 4, while the same effect on an equipped item is left out. *)
Theorem disabled_actor_effect_counts :
  truthy Sample.disabled_effect?."disabled" = true /\
  collectTransferEffects Sample.disabled_actor = Ok [Sample.disabled_effect] /\
  extractACFromEffects Sample.disabled_actor
  = Ok {| add := of_Z 1; override := None |} /\
  computeAC Sample.no_engine Sample.disabled_actor Sample.dex18
  = Ok (of_Z 15) /\
  extractACFromEffects Sample.disabled_on_item
  = Ok {| add := Fin 0; override := None |} /\
  computeAC Sample.no_engine Sample.disabled_on_item Sample.dex18
  = Ok (of_Z 14).
Proof. repeat split; vm_compute; reflexivity. Qed.

(** ** Armour class: the explicit value *)

Lemma prop_num_object (v : value) (k : string) (n : num) :
  v?.k = VNum n -> exists kv, v = VObj kv.
Proof.
  destruct v; simpl; try discriminate; eauto.
  destruct (String.eqb k "flat"); discriminate.
Qed.

Lemma prop_object_object (v : value) (k : string) (kv : list (string * value)) :
  v?.k = VObj kv -> exists kv', v = VObj kv'.
Proof.
  destruct v; simpl; try discriminate; eauto.
  destruct (String.eqb k "flat"); discriminate.
Qed.

(** A document whose [system.attributes.ac] holds a number under [k] has
    that [ac] block as the [ac] of [computeAC]. *)
Lemma ac_block (actor : value) (k : string) (n : num) :
  actor?."system"?."attributes"?."ac"?.k = VNum n ->
  or_else (or_else actor?."system" (VObj []))?."attributes"?."ac" (VObj [])
  = actor?."system"?."attributes"?."ac".
Proof.
  intro H.
  destruct (prop_num_object _ _ _ H) as [ac Hac].
  destruct (prop_object_object _ _ _ Hac) as [attrs Hat].
  destruct (prop_object_object _ _ _ Hat) as [sys Hsys].
  rewrite Hac. rewrite Hsys in *. cbn [or_else truthy].
  rewrite Hat in *. rewrite Hac. reflexivity.
Qed.

(** C3.  When [system.attributes.ac.value] is a finite number, [computeAC]
    returns that number; when it is not and [system.attributes.ac.flat] is a
    finite number, [computeAC] returns that one.  Items, effects, bonuses
    and the engine have no say.  The earlier revision of [computeAC] does
    the same. *)
Theorem explicit_ac_wins
  (run : string -> result value) (actor : value) (derived : Derived) (q : Q) :
  let ac := actor?."system"?."attributes"?."ac" in
  (ac?."value" = VNum (Fin q) ->
   computeAC run actor derived = Ok (Fin q) /\
   Legacy.computeAC run actor derived = Ok (Fin q)) /\
  (isFinite ac?."value" = false -> ac?."flat" = VNum (Fin q) ->
   computeAC run actor derived = Ok (Fin q) /\
   Legacy.computeAC run actor derived = Ok (Fin q)).
Proof.
  intro ac. split.
  - intro H. unfold computeAC, Legacy.computeAC. rewrite (ac_block _ _ _ H).
    fold ac. rewrite H. split; reflexivity.
  - intros Hv H. unfold computeAC, Legacy.computeAC.
    rewrite (ac_block _ _ _ H).
    fold ac. rewrite Hv, H. split; reflexivity.
Qed.

(** A document with an armour class of 17 in its export, for all the
    armour and the ring it lists. *)
Lemma explicit_ac_wins_witness :
  computeAC Sample.no_engine Sample.explicit_17 Sample.dex18 = Ok (Fin 17)
  /\ Legacy.computeAC Sample.no_engine Sample.explicit_17 Sample.dex18
     = Ok (Fin 17).
Proof.
  exact (proj1 (explicit_ac_wins Sample.no_engine Sample.explicit_17
                  Sample.dex18 17) eq_refl).
Defined.

(** ** Armour class: the custom formula *)

Lemma arith_char_class (c : ascii) :
  arith_char c = true <-> In c arith_symbols \/ is_space c = true.
Proof.
  split.
  - ascii_cases c; (right; reflexivity) || (left; simpl; tauto).
  - intros [H|H].
    + simpl in H.
      repeat (destruct H as [<-|H]; [reflexivity|]). contradiction.
    + unfold arith_char. rewrite H. now rewrite orb_true_r.
Qed.

Lemma forall_string_Forall (p : ascii -> bool) (s : string) :
  forall_string p s = true <->
  Forall (fun c => p c = true) (list_ascii_of_string s).
Proof.
  induction s as [|c s IH]; simpl.
  - split; auto.
  - rewrite andb_true_iff, IH. split.
    + intros [? ?]. constructor; assumption.
    + intro H. inversion H. auto.
Qed.

(** The test that guards the evaluation, read on the characters. *)
Lemma arith_only_class (expr : string) :
  arith_only expr = true <->
  expr <> "" /\
  Forall (fun c => In c arith_symbols \/ is_space c = true)
         (list_ascii_of_string expr).
Proof.
  unfold arith_only. rewrite andb_true_iff, forall_string_Forall.
  rewrite negb_true_iff. split; intros [Hne Hall]; split.
  - intros ->. discriminate.
  - eapply Forall_impl; [|exact Hall]. intros c. apply arith_char_class.
  - destruct expr; [congruence|reflexivity].
  - eapply Forall_impl; [|exact Hall]. intros c. apply arith_char_class.
Qed.

Section CustomFormula.

Variable run : string -> result value.
Variables (actor : value) (derived : Derived).
Variables (parts : ArmorParts) (dex : num) (effects : ACEffects) (bonus : num).
Variable formula : string.

Let sys := or_else actor?."system" (VObj []).
Let ac := or_else sys?."attributes"?."ac" (VObj []).
Let totalBonus := num_add bonus (add effects).
Let heuristic := num_add (num_add (acArmor parts) dex) totalBonus.
Let expr :=
  substitute (formula_context (acArmor parts) (shieldTotal parts) dex
                totalBonus derived) formula.
Let body := "return (" ++ expr ++ ");".

(** No explicit value, the armour and the bonuses read without error, no
    override from an effect, and a custom formula declared. *)
Hypothesis no_value : isFinite ac?."value" = false.
Hypothesis no_flat : isFinite ac?."flat" = false.
Hypothesis armour_parts : computeACArmorParts actor = Ok parts.
Hypothesis dex_part :
  dexCapped (m_dex (abilityMods derived))
    (if truthy (bestArmour parts)
     then (bestArmour parts)?."system"?."armor"?."dex" else VNull) = Ok dex.
Hypothesis effect_part : extractACFromEffects actor = Ok effects.
Hypothesis bonus_part : sysBonus sys ac = Ok bonus.
Hypothesis no_override : finite_override (override effects) = None.
Hypothesis custom : str_is ac?."calc" "custom" = true.
Hypothesis declared : ac?."formula" = VStr formula.

Lemma computeAC_custom :
  computeAC run actor derived =
  Ok match custom_formula run formula
             (formula_context (acArmor parts) (shieldTotal parts) dex
                totalBonus derived) totalBonus with
     | Some n => n
     | None => heuristic
     end.
Proof.
  unfold computeAC. fold sys. fold ac.
  rewrite no_value, no_flat, armour_parts. cbn [bind].
  rewrite dex_part. cbn [bind]. rewrite effect_part. cbn [bind].
  rewrite bonus_part. cbn [bind]. rewrite no_override, custom, declared.
  cbn [is_string andb]. fold totalBonus.
  destruct (custom_formula run formula _ totalBonus); reflexivity.
Qed.

(** C4.  On the custom-formula path the formula, its tokens replaced, is
    handed to the engine only when it is made of digits, the four
    operators, brackets, periods and white space; when it is not, when the
    engine raises, and when what the engine returns is not a finite
    number, [computeAC] returns the heuristic sum of the armour, the
    capped Dex and the bonus; when the engine returns a finite number the
    bonus is added to it exactly when the formula does not name the bonus
    token. *)
Theorem custom_formula_path :
  (arith_only expr = true <->
   expr <> "" /\
   Forall (fun c => In c arith_symbols \/ is_space c = true)
          (list_ascii_of_string expr)) /\
  (arith_only expr = false ->
   custom_formula run formula
     (formula_context (acArmor parts) (shieldTotal parts) dex totalBonus
        derived) totalBonus = None /\
   computeAC run actor derived = Ok heuristic) /\
  (run body = Throw -> computeAC run actor derived = Ok heuristic) /\
  (forall v, run body = Ok v -> isFinite v = false ->
             computeAC run actor derived = Ok heuristic) /\
  (forall x, arith_only expr = true -> run body = Ok (VNum (Fin x)) ->
             computeAC run actor derived =
             Ok (if includes BONUS_TOKEN formula then Fin x
                 else num_add (Fin x) totalBonus)).
Proof.
  split; [apply arith_only_class|].
  rewrite computeAC_custom. unfold custom_formula. fold expr. fold body.
  repeat split.
  - now rewrite H.
  - now rewrite H.
  - intro H. destruct (arith_only expr); [|reflexivity]. now rewrite H.
  - intros v H Hv. destruct (arith_only expr); [|reflexivity].
    now rewrite H, Hv.
  - intros x He H. rewrite He, H. cbn [isFinite num_finite].
    destruct (includes BONUS_TOKEN formula); reflexivity.
Qed.

End CustomFormula.

(** Plate armour, a Dex cap of 0, a bonus of 1 and a formula that leaves
    the bonus out: the engine finds 18 and the bonus is put on top. *)
Lemma custom_formula_path_witness :
  computeAC Sample.engine_18 Sample.plate_formula Sample.dex18
  = Ok (of_Z 19).
Proof.
  refine (proj2 (proj2 (proj2 (proj2
            (custom_formula_path Sample.engine_18 Sample.plate_formula
               Sample.dex18
               {| bestArmour := Sample.armour 18 [("dex", Sample.int 0)];
                  armourTotal := of_Z 18; shieldTotal := Fin 0;
                  acArmor := of_Z 18 |}
               (Fin 0) {| add := Fin 0; override := None |} (of_Z 1)
               "@attributes.ac.armor + @attributes.ac.dex"
               _ _ _ _ _ _ _ _ _)))) 18%Q _ _);
    vm_compute; reflexivity.
Defined.

(** ** Armour class: a Dex cap that is not a number *)

Lemma dexCapped_not_a_number (dexFull : num) (dexCap : value) :
  nullish dexCap = false -> str_is dexCap "" = false ->
  to_number dexCap = Ok NaN ->
  dexCapped dexFull dexCap = Ok (num_min dexFull (Fin 0)).
Proof.
  intros Hn Hs Hc. unfold dexCapped. rewrite Hn, Hs, Hc. reflexivity.
Qed.

(** C10.  When the best armour of [computeAC] declares a Dex cap that is
    neither [null], [undefined] nor the empty string and that [Number(..)]
    turns into [NaN], the cap counts as 0: the Dex part is
    [min(full Dex modifier, 0)], and that is what the heuristic sum adds to
    the armour and the bonus, in the current revision and in the earlier
    one. *)
Theorem dex_cap_not_a_number
  (run : string -> result value) (actor : value) (derived : Derived)
  (dexCap : value) :
  let sys := or_else actor?."system" (VObj []) in
  let ac := or_else sys?."attributes"?."ac" (VObj []) in
  let dexFull := m_dex (abilityMods derived) in
  nullish dexCap = false -> str_is dexCap "" = false ->
  to_number dexCap = Ok NaN ->
  isFinite ac?."value" = false -> isFinite ac?."flat" = false ->
  str_is ac?."calc" "custom" && is_string ac?."formula" = false ->
  dexCapped dexFull dexCap = Ok (num_min dexFull (Fin 0)) /\
  (forall parts effects bonus,
      computeACArmorParts actor = Ok parts ->
      truthy (bestArmour parts) = true ->
      (bestArmour parts)?."system"?."armor"?."dex" = dexCap ->
      extractACFromEffects actor = Ok effects ->
      sysBonus sys ac = Ok bonus ->
      finite_override (override effects) = None ->
      computeAC run actor derived =
      Ok (num_add (num_add (acArmor parts) (num_min dexFull (Fin 0)))
                  (num_add bonus (add effects)))) /\
  (forall parts flatBonus,
      Legacy.computeACArmorAndShield actor = Ok parts ->
      truthy (Legacy.bestArmour parts) = true ->
      (Legacy.bestArmour parts)?."system"?."armor"?."dex" = dexCap ->
      parseFlatBonus ac?."bonus" = Ok flatBonus ->
      Legacy.computeAC run actor derived =
      Ok (num_add (num_add (num_add (Legacy.armourBase parts)
                                    (num_min dexFull (Fin 0)))
                           (Legacy.shieldBonus parts))
                  flatBonus)).
Proof.
  intros sys ac dexFull Hn Hs Hc Hv Hf Hcu.
  pose proof (dexCapped_not_a_number dexFull dexCap Hn Hs Hc) as Hd.
  split; [exact Hd|]. split.
  - intros parts effects bonus Hp Hb Hcap He Hsb Ho.
    unfold computeAC. fold sys. fold ac. rewrite Hv, Hf, Hp. cbn [bind].
    rewrite Hb, Hcap. fold dexFull. rewrite Hd. cbn [bind].
    rewrite He. cbn [bind]. rewrite Hsb. cbn [bind]. rewrite Ho, Hcu.
    reflexivity.
  - intros parts flatBonus Hp Hb Hcap Hfb.
    unfold Legacy.computeAC. fold sys. fold ac. rewrite Hv, Hf, Hp.
    cbn [bind]. rewrite Hb, Hcap. fold dexFull. rewrite Hd. cbn [bind].
    rewrite Hcu, Hfb. reflexivity.
Qed.

(** Armour of 14 whose cap is the word none, on a Dex modifier of 4: the
    Dex part is 0 and the armour class 14, in both revisions. *)
Lemma dex_cap_not_a_number_witness :
  computeAC Sample.no_engine Sample.odd_cap Sample.dex18 = Ok (of_Z 14) /\
  Legacy.computeAC Sample.no_engine Sample.odd_cap Sample.dex18
  = Ok (of_Z 14).
Proof.
  destruct (dex_cap_not_a_number Sample.no_engine Sample.odd_cap
              Sample.dex18 (VStr "none")
              eq_refl eq_refl eq_refl eq_refl eq_refl eq_refl)
    as (_ & Hnew & Hold).
  split.
  - refine (Hnew {| bestArmour := Sample.armour 14 [("dex", VStr "none")];
                    armourTotal := of_Z 14; shieldTotal := Fin 0;
                    acArmor := of_Z 14 |}
                 {| add := Fin 0; override := None |} (Fin 0) _ _ _ _ _ _);
      vm_compute; reflexivity.
  - refine (Hold {| Legacy.armourBase := of_Z 14; Legacy.shieldBonus := Fin 0;
                    Legacy.bestArmour :=
                      Sample.armour 14 [("dex", VStr "none")] |}
                 (Fin 0) _ _ _ _);
      vm_compute; reflexivity.
Defined.

(** ** Skills and passive perception *)

Lemma bind_ok {A B : Type} (r : result A) (k : A -> result B) (b : B) :
  bind r k = Ok b -> exists a, r = Ok a /\ k a = Ok b.
Proof. destruct r as [a|]; simpl; [eauto|discriminate]. Qed.

Ltac inv_bind H :=
  let a := fresh "x" in
  let Ha := fresh "E" in
  apply bind_ok in H; destruct H as (a & Ha & H).

Lemma mods_get_modifier (m : AbilityMods) (a : string) :
  mods_get m a =
  match modifier m a with
  | Some n => VNum n
  | None => if inherited a then VNative a else VUndef
  end.
Proof.
  unfold mods_get, modifier.
  repeat match goal with |- context [String.eqb a ?s] =>
    destruct (String.eqb a s); [reflexivity|] end.
  reflexivity.
Qed.

(** The base of a skill whose governing ability is absent, or is a name
    that neither the six abilities nor [Object.prototype] know: 0; and the
    modifier, for one of the six. *)
Lemma skill_base_absent (mods : AbilityMods) (ability : value) :
  truthy ability = false -> skill_base mods ability = Ok (VNum (Fin 0)).
Proof. intro H. unfold skill_base. now rewrite H. Qed.

Lemma skill_base_named (mods : AbilityMods) (a : string) :
  inherited a = false ->
  skill_base mods (VStr a) =
  Ok (VNum match modifier mods a with
           | Some n => n
           | None => Fin 0
           end).
Proof.
  intro H. unfold skill_base. cbn [truthy to_string bind].
  rewrite mods_get_modifier, H.
  destruct a as [|c a]; [reflexivity|]. cbn [is_empty negb].
  destruct (modifier mods (String c a)); reflexivity.
Qed.

Lemma skill_base_inherited (mods : AbilityMods) (a : string) :
  inherited a = true -> skill_base mods (VStr a) = Ok (VNative a).
Proof.
  intro H. unfold skill_base. cbn [truthy to_string bind].
  rewrite mods_get_modifier, H.
  assert (M : modifier mods a = None).
  { unfold inherited, object_proto_names in H. cbn [existsb] in H.
    repeat (apply orb_true_iff in H as [H|H];
            [apply String.eqb_eq in H; subst; reflexivity|]).
    discriminate. }
  rewrite M. destruct a; [discriminate|reflexivity].
Qed.

(** *** The proficiency component *)

Lemma profComponent_positive (r : Q) (prof : num) :
  (0 < r)%Q ->
  profComponent (VNum (Fin r)) prof =
  Ok (if Qeq_bool r (1 # 2) then num_floor (num_div prof (Fin 2))
      else if Qeq_bool r 1 then prof
      else if Qeq_bool r 2 then num_mul (Fin 2) prof
      else num_floor (num_mul (Fin r) prof)).
Proof.
  intro H. unfold profComponent.
  cbn [coalesce nullish to_number bind num_finite negb orb num_leb num_eqb].
  apply Qle_bool_false in H. rewrite H.
  destruct (Qeq_bool r (1 # 2)); [reflexivity|].
  destruct (Qeq_bool r 1); [reflexivity|].
  destruct (Qeq_bool r 2); reflexivity.
Qed.

Lemma profComponent_none (rank : value) (r prof : num) :
  to_number (rank ?? VNum (Fin 0)) = Ok r ->
  num_finite r = false \/ num_leb r (Fin 0) = true ->
  profComponent rank prof = Ok (Fin 0).
Proof.
  intros Hr H. unfold profComponent. rewrite Hr. cbn [bind].
  destruct H as [H|H]; rewrite H; [reflexivity|].
  now rewrite orb_true_r.
Qed.

(** With an integer proficiency bonus every positive finite rank gives
    [floor(rank * prof)], the three named ranks included. *)
Lemma profComponent_integer (r : Q) (p : Z) :
  (0 < r)%Q ->
  profComponent (VNum (Fin r)) (of_Z p) = Ok (of_Z (Qfloor (r * inject_Z p))).
Proof.
  intro H. rewrite (profComponent_positive r (of_Z p) H).
  destruct (Qeq_bool r (1 # 2)) eqn:E1.
  { apply Qeq_bool_iff in E1. f_equal.
    change (Fin 2) with (Fin (Zpos 2 # 1)). unfold of_Z, num_div.
    change (is_zero (Z.pos 2 # 1)) with false. cbv iota. unfold num_floor.
    apply (f_equal of_Z). rewrite Qfloor_red. apply Qfloor_comp.
    rewrite E1. unfold Qdiv. rewrite Qmult_comm. reflexivity. }
  destruct (Qeq_bool r 1) eqn:E2.
  { apply Qeq_bool_iff in E2. f_equal. unfold of_Z. f_equal.
    rewrite <- (Qfloor_Z p) at 1. apply (f_equal inject_Z), Qfloor_comp.
    rewrite E2. now rewrite Qmult_1_l. }
  destruct (Qeq_bool r 2) eqn:E3.
  { apply Qeq_bool_iff in E3. f_equal.
    change (Fin 2) with (of_Z 2). rewrite num_mul_of_Z. apply (f_equal of_Z).
    rewrite <- (Qfloor_Z (2 * p)). apply Qfloor_comp.
    rewrite E3, inject_Z_mult. reflexivity. }
  f_equal. unfold of_Z, num_mul, num_floor. apply (f_equal of_Z).
  apply Qfloor_red.
Qed.

Lemma proficiencyBonus_integral (v : value) (p : num) :
  proficiencyBonus v = Ok p -> integral p.
Proof.
  unfold proficiencyBonus. intro H. inv_bind H.
  destruct x as [| | |q]; cbn [num_finite negb orb] in H;
    try (injection H as <-; exists 0%Z; reflexivity).
  destruct (num_leb (Fin q) (Fin 0)).
  - injection H as <-. exists 0%Z. reflexivity.
  - rewrite (floor_sub_div q 1 4) in H. change (Fin 2) with (of_Z 2) in H.
    rewrite num_add_of_Z in H. injection H as <-. eexists. reflexivity.
Qed.

Lemma profComponent_coerces (rank : value) (r prof : num) :
  to_number (rank ?? VNum (Fin 0)) = Ok r ->
  profComponent rank prof = profComponent (VNum r) prof.
Proof.
  intro H. unfold profComponent. rewrite H. reflexivity.
Qed.

Lemma profComponent_prof_part (rank : value) (p : Z) (part : num) :
  profComponent rank (of_Z p) = Ok part ->
  exists r, to_number (rank ?? VNum (Fin 0)) = Ok r /\ part = prof_part r p.
Proof.
  intro H.
  destruct (to_number (rank ?? VNum (Fin 0))) as [r|] eqn:Hr;
    [|unfold profComponent in H; rewrite Hr in H; discriminate].
  exists r. split; [reflexivity|].
  rewrite (profComponent_coerces rank r (of_Z p) Hr) in H.
  destruct r as [| | |q]; try (inversion H; reflexivity).
  unfold prof_part. destruct (Qle_bool q 0) eqn:Hq.
  - rewrite (profComponent_none (VNum (Fin q)) (Fin q) (of_Z p) eq_refl
               (or_intror Hq)) in H.
    now inversion H.
  - apply Qle_bool_false in Hq.
    rewrite (profComponent_integer q p Hq) in H. now inversion H.
Qed.

(** The named ranks. *)
Lemma prof_part_named (p : Z) :
  prof_part (Fin (1 # 2)) p = of_Z (p / 2) /\
  prof_part (Fin 1) p = of_Z p /\
  prof_part (Fin 2) p = of_Z (2 * p).
Proof.
  unfold prof_part.
  change (Qle_bool (1 # 2) 0) with false. change (Qle_bool 1 0) with false.
  change (Qle_bool 2 0) with false. cbv iota.
  repeat split; apply (f_equal of_Z).
  - rewrite <- (Qfloor_div_Z p 2). apply Qfloor_comp.
    unfold Qdiv. rewrite Qmult_comm. reflexivity.
  - rewrite <- (Qfloor_Z p) at 2. apply Qfloor_comp. apply Qmult_1_l.
  - rewrite <- (Qfloor_Z (2 * p)). apply Qfloor_comp.
    rewrite inject_Z_mult. reflexivity.
Qed.

(** *** What the loop stores *)

Lemma assoc_update_same (k : string) (v : value) (kv : list (string * value)) :
  assoc k (update k v kv) = Some v.
Proof.
  induction kv as [|[k' v'] kv IH]; simpl.
  - now rewrite String.eqb_refl.
  - destruct (String.eqb k k') eqn:E; simpl.
    + now rewrite String.eqb_refl.
    + now rewrite E.
Qed.

Lemma assoc_update_other (k k' : string) (v : value)
  (kv : list (string * value)) :
  k <> k' -> assoc k (update k' v kv) = assoc k kv.
Proof.
  intro H. apply String.eqb_neq in H.
  induction kv as [|[k2 v2] kv IH]; simpl.
  - now rewrite H.
  - destruct (String.eqb k' k2) eqn:E; simpl.
    + apply String.eqb_eq in E. subst k2. now rewrite H.
    + now rewrite IH.
Qed.

Lemma assoc_set_prop_other (k k' : string) (v : value)
  (kv : list (string * value)) :
  k <> k' -> assoc k (set_prop k' v kv) = assoc k kv.
Proof.
  intro H. unfold set_prop. destruct (String.eqb k' "__proto__");
    [reflexivity|now apply assoc_update_other].
Qed.

Lemma foldM_store (g : value -> result value) (l : list (string * value)) :
  forall acc0 acc,
    foldM (fun acc e => t <- g (snd e) ;; Ok (set_prop (fst e) t acc)) l acc0
    = Ok acc ->
    NoDup (map fst l) ->
    (forall k sk, In (k, sk) l ->
                  exists t, g sk = Ok t /\
                            (k <> "__proto__" -> assoc k acc = Some t)) /\
    (forall k, ~ In k (map fst l) -> assoc k acc = assoc k acc0).
Proof.
  induction l as [|[k0 sk0] l IH]; intros acc0 acc H Hnd.
  - simpl in H. inversion H; subst. split; [intros ? ? []|reflexivity].
  - cbn [foldM] in H. apply bind_ok in H as (acc1 & E & H).
    cbn [fst snd] in E. apply bind_ok in E as (t0 & Et & E).
    injection E as <-.
    inversion Hnd as [|? ? Hk0 Hnd']; subst.
    destruct (IH _ _ H Hnd') as [IH1 IH2]. split.
    + intros k sk [Heq|Hin].
      * inversion Heq; subst k0 sk0. exists t0. split; [exact Et|].
        intro Hk. rewrite (IH2 k Hk0). unfold set_prop.
        apply String.eqb_neq in Hk. rewrite Hk. apply assoc_update_same.
      * exact (IH1 k sk Hin).
    + intros k Hk. cbn [map fst In] in Hk.
      rewrite IH2 by tauto. apply assoc_set_prop_other. intro. subst. tauto.
Qed.

(** *** The derived statistics *)

Lemma dnd5eDerived_inv (actor : value) (d : Derived) :
  let sys := or_else actor?."system" (VObj []) in
  let abilities := or_else sys?."abilities" (VObj []) in
  let skills := or_else sys?."skills" (VObj []) in
  let prc := match assoc "prc" (skillTotals d) with
             | Some t => t
             | None => VUndef
             end in
  dnd5eDerived actor = Ok d ->
  totalLevel actor = Ok (level d) /\
  proficiencyBonus (VNum (level d)) = Ok (prof d) /\
  (abilityMod abilities?."str"?."value" = Ok (m_str (abilityMods d)) /\
   abilityMod abilities?."dex"?."value" = Ok (m_dex (abilityMods d)) /\
   abilityMod abilities?."con"?."value" = Ok (m_con (abilityMods d)) /\
   abilityMod abilities?."int"?."value" = Ok (m_int (abilityMods d)) /\
   abilityMod abilities?."wis"?."value" = Ok (m_wis (abilityMods d)) /\
   abilityMod abilities?."cha"?."value" = Ok (m_cha (abilityMods d))) /\
  foldM (fun acc e =>
           t <- skill_total sys (prof d) (abilityMods d) (snd e) ;;
           Ok (set_prop (fst e) t acc))
        (entries skills) [] = Ok (skillTotals d) /\
  exists p0 b1 p1 b2,
    js_add (VNum (Fin 10)) (prc ?? VNum (Fin 0)) = Ok p0 /\
    parseFlatBonus skills?."prc"?."bonuses"?."passive" = Ok b1 /\
    js_add p0 (VNum b1) = Ok p1 /\
    parseFlatBonus sys?."bonuses"?."skills"?."passive" = Ok b2 /\
    js_add p1 (VNum b2) = Ok (passivePrc d).
Proof.
  intros sys abilities skills prc H. unfold dnd5eDerived in H.
  fold sys in H. fold abilities in H. fold skills in H.
  repeat inv_bind H. injection H as <-. cbn [level prof abilityMods
    skillTotals passivePrc m_str m_dex m_con m_int m_wis m_cha] in *.
  repeat split; try assumption.
  eauto 10.
Qed.

Lemma skill_base_ordinary (mods : AbilityMods) (ability : value) :
  ordinary_ability ability = true ->
  skill_base mods ability = Ok (VNum (base_of mods ability)).
Proof.
  intro H. destruct ability; simpl in H;
    try (apply negb_true_iff in H; now apply skill_base_absent);
    try discriminate.
  - reflexivity.
  - reflexivity.
  - apply negb_true_iff in H. now apply skill_base_named.
Qed.


Lemma rogue_derived :
  dnd5eDerived Sample.rogue = Ok (Sample.derived_of Sample.rogue).
Proof. vm_compute. reflexivity. Qed.

Lemma rogue_skills_distinct :
  NoDup (map fst (entries
     (or_else (or_else Sample.rogue?."system" (VObj []))?."skills" (VObj [])))).
Proof.
  cbn. repeat constructor; simpl; intuition discriminate.
Qed.



(** ** Documents on which nothing raises *)

(** Induction on values, through the arrays and the objects. *)
Lemma value_nested_ind (P : value -> Prop) :
  P VUndef -> P VNull -> (forall b, P (VBool b)) -> (forall n, P (VNum n)) ->
  (forall s, P (VStr s)) ->
  (forall l, Forall P l -> P (VArr l)) ->
  (forall kv, Forall (fun e => P (snd e)) kv -> P (VObj kv)) ->
  (forall name, P (VNative name)) ->
  forall v, P v.
Proof.
  intros Hu Hn Hb Hnum Hs Ha Ho Hnat.
  fix IH 1.
  intros [| |b|n|s|l|kv|name];
    [exact Hu|exact Hn|apply Hb|apply Hnum|apply Hs| | |apply Hnat].
  - apply Ha. induction l as [|x l IHl]; constructor; [apply IH|exact IHl].
  - apply Ho. induction kv as [|[k x] kv IHkv]; constructor;
      [apply IH|exact IHkv].
Qed.

Lemma plain_assoc (k : string) (kv : list (string * value)) (x : value) :
  forallb (fun e => plain (snd e)) kv = true -> assoc k kv = Some x ->
  plain x = true.
Proof.
  induction kv as [|[k' v'] kv IH]; simpl; [discriminate|].
  intros H E. apply andb_true_iff in H as [Hv Hkv].
  destruct (String.eqb k k'); [now inversion E; subst|auto].
Qed.

Lemma plain_prop (v : value) (k : string) :
  plain v = true -> plain v?.k = true.
Proof.
  destruct v; simpl; auto.
  - destruct (String.eqb k "flat"); reflexivity.
  - intro H. apply andb_true_iff in H as [_ H].
    destruct (assoc k kv) eqn:E; [|reflexivity].
    exact (plain_assoc k kv v H E).
Qed.

Lemma plain_coalesce (a b : value) :
  plain a = true -> plain b = true -> plain (a ?? b) = true.
Proof. intros. unfold coalesce. now destruct (nullish a). Qed.

Lemma plain_or_else (a b : value) :
  plain a = true -> plain b = true -> plain (or_else a b) = true.
Proof. intros. unfold or_else. now destruct (truthy a). Qed.

Create HintDb plain.
#[local] Hint Resolve plain_prop plain_coalesce plain_or_else : plain.
#[local] Hint Extern 1 (plain _ = true) => reflexivity : plain.

Lemma to_string_plain (v : value) :
  plain v = true -> exists s, to_string v = Ok s.
Proof.
  induction v using value_nested_ind; intro Hp; try (eexists; reflexivity).
  - cbn [to_string].
    assert (E : exists parts,
               (fix elems (l : list value) : result (list string) :=
                  match l with
                  | [] => Ok []
                  | x :: l' =>
                      s <- (if nullish x then Ok "" else to_string x) ;;
                      ss <- elems l' ;;
                      Ok (s :: ss)
                  end) l = Ok parts).
    { cbn [plain] in Hp. induction l as [|x l IHl]; [eexists; reflexivity|].
      inversion H as [|? ? Hx Hl]; subst.
      cbn [forallb] in Hp. apply andb_true_iff in Hp as [Hpx Hpl].
      destruct (IHl Hl Hpl) as [ss Hss].
      destruct (Hx Hpx) as [s Hs].
      rewrite Hss, Hs. destruct (nullish x); eexists; reflexivity. }
    destruct E as [parts E]. rewrite E. eexists. reflexivity.
  - cbn [plain] in Hp. apply andb_true_iff in Hp as [Hk _].
    apply negb_true_iff in Hk. cbn [to_string]. rewrite Hk.
    eexists. reflexivity.
Qed.

Lemma to_number_plain (v : value) :
  plain v = true -> exists n, to_number v = Ok n.
Proof.
  intro Hp. destruct (to_string_plain v Hp) as [s Hs].
  destruct v; try (eexists; reflexivity);
    unfold to_number; rewrite Hs; eexists; reflexivity.
Qed.

Lemma safeText_plain (v : value) :
  plain v = true -> exists s, safeText v = Ok s.
Proof.
  intro Hp. unfold safeText. apply to_string_plain.
  apply plain_coalesce; [exact Hp|reflexivity].
Qed.

Lemma flat_of_text_finite (s : string) : num_finite (flat_of_text s) = true.
Proof. unfold flat_of_text. destruct (has_d_digit s); reflexivity. Qed.

Lemma parseFlatBonus_plain (v : value) :
  plain v = true ->
  exists n, parseFlatBonus v = Ok n /\ num_finite n = true.
Proof.
  intro Hp. destruct (nullish v) eqn:Hn.
  - exists (Fin 0). unfold parseFlatBonus. rewrite Hn. auto.
  - destruct (is_number v) eqn:Hv.
    + destruct v; try discriminate. rewrite parseFlatBonus_number.
      destruct (num_finite n) eqn:F; eauto.
    + destruct (to_string_plain v Hp) as [s Hs].
      rewrite (parseFlatBonus_text v s Hn Hv Hs).
      eauto using flat_of_text_finite.
Qed.

Lemma abilityMod_integral (v : value) (n : num) :
  abilityMod v = Ok n -> integral n.
Proof.
  unfold abilityMod. intro H. apply bind_ok in H as (s & Hs & H).
  destruct s as [| | |q]; cbn [num_finite negb] in H;
    try (injection H as <-; exists 0%Z; reflexivity).
  change (Fin 10) with (Fin (Zpos 10 # 1)) in H.
  change (Fin 2) with (Fin (Zpos 2 # 1)) in H.
  rewrite floor_sub_div in H. injection H as <-. eexists. reflexivity.
Qed.

Lemma abilityMod_plain (v : value) :
  plain v = true -> exists n, abilityMod v = Ok n.
Proof.
  intro Hp. destruct (to_number_plain v Hp) as [n Hn].
  unfold abilityMod. rewrite Hn. cbn [bind].
  destruct (negb (num_finite n)); eexists; reflexivity.
Qed.

(** *** Loops *)

Lemma foldM_invariant {A S : Type} (f : S -> A -> result S)
  (I : S -> Prop) (P : A -> Prop) (l : list A) :
  (forall s a, I s -> P a -> exists s', f s a = Ok s' /\ I s') ->
  Forall P l ->
  forall s0, I s0 -> exists s', foldM f l s0 = Ok s' /\ I s'.
Proof.
  intros Hf Hl. induction Hl as [|a l Ha Hl IH]; intros s0 H0.
  - exists s0. auto.
  - destruct (Hf s0 a H0 Ha) as (s1 & E & H1).
    cbn [foldM]. rewrite E. cbn [bind]. exact (IH s1 H1).
Qed.

Lemma mapM_invariant {A B : Type} (f : A -> result B)
  (P : A -> Prop) (Q : B -> Prop) (l : list A) :
  (forall a, P a -> exists b, f a = Ok b /\ Q b) ->
  Forall P l ->
  exists bs, mapM f l = Ok bs /\ Forall Q bs.
Proof.
  intros Hf Hl. induction Hl as [|a l Ha Hl IH].
  - exists []. auto.
  - destruct (Hf a Ha) as (b & E & Hb). destruct IH as (bs & Ebs & Hbs).
    cbn [mapM]. rewrite E, Ebs. cbn [bind]. eauto.
Qed.

Lemma forallb_Forall {A : Type} (p : A -> bool) (l : list A) :
  forallb p l = true -> Forall (fun a => p a = true) l.
Proof.
  induction l as [|a l IH]; simpl; [constructor|].
  intro H. apply andb_true_iff in H as [? ?]. constructor; auto.
Qed.

Lemma Forall_filter {A : Type} (P : A -> Prop) (p : A -> bool) (l : list A) :
  Forall P l -> Forall P (filter p l).
Proof.
  induction 1 as [|a l Ha Hl IH]; simpl; [constructor|].
  destruct (p a); [constructor|]; assumption.
Qed.

(** *** The items *)

Lemma items_plain (actor : value) :
  plain actor = true -> items_listed actor = true ->
  exists l,
    or_else actor?."items" (VArr []) = VArr l /\
    Forall (fun i => plain i = true) l.
Proof.
  intros Hp Hi. unfold items_listed in Hi. unfold or_else.
  pose proof (plain_prop actor "items" Hp) as Hpi.
  destruct (truthy actor?."items") eqn:T.
  - cbn [negb orb] in Hi. destruct (actor?."items"); try discriminate.
    exists l. split; [reflexivity|]. now apply forallb_Forall.
  - exists []. split; [reflexivity|constructor].
Qed.

Lemma items_of_plain (actor : value) :
  plain actor = true -> items_listed actor = true ->
  exists l, items_of actor = Ok l /\ Forall (fun i => plain i = true) l.
Proof.
  intros Hp Hi. destruct (items_plain actor Hp Hi) as (l & E & Hl).
  exists l. unfold items_of. rewrite E. auto.
Qed.

(** *** The derived statistics *)

Lemma totalLevel_plain (actor : value) :
  plain actor = true -> items_listed actor = true ->
  exists n, totalLevel actor = Ok n.
Proof.
  intros Hp Hi. destruct (items_of_plain actor Hp Hi) as (l & E & Hl).
  unfold totalLevel. rewrite E. cbn [bind].
  destruct (foldM_invariant
              (fun a c =>
                 n <- to_number (c?."system"?."levels" ?? VNum (Fin 0)) ;;
                 Ok (num_add a n))
              (fun _ => True) (fun i => plain i = true)
              (filter (fun i => str_is i?."type" "class") l))
    with (s0 := Fin 0) as (lvl & El & _).
  - intros s a _ Ha.
    destruct (to_number_plain (a?."system"?."levels" ?? VNum (Fin 0)))
      as [n Hn]; [auto with plain|].
    rewrite Hn. eexists. split; [reflexivity|exact I].
  - now apply Forall_filter.
  - exact I.
  - rewrite El. cbn [bind]. destruct (num_truthy lvl); [eauto|].
    destruct (to_number_plain
                ((or_else actor?."system" (VObj []))?."details"?."level"
                 ?? VNum (Fin 0))) as [n Hn]; [auto 6 with plain|].
    rewrite Hn. eexists. reflexivity.
Qed.

Lemma proficiencyBonus_number (l : num) :
  exists p, proficiencyBonus (VNum l) = Ok p.
Proof.
  unfold proficiencyBonus. cbn [to_number bind].
  destruct (negb (num_finite l) || num_leb l (Fin 0)); eexists; reflexivity.
Qed.

Lemma profComponent_plain (rank : value) (p : Z) :
  plain rank = true ->
  exists part, profComponent rank (of_Z p) = Ok part /\ num_finite part = true.
Proof.
  intro Hp.
  destruct (to_number_plain (rank ?? VNum (Fin 0))) as [r Hr];
    [auto with plain|].
  assert (E : exists part, profComponent rank (of_Z p) = Ok part).
  { unfold profComponent. rewrite Hr. cbn [bind].
    repeat match goal with
           | |- context [if ?c then _ else _] => destruct c
           end; eexists; reflexivity. }
  destruct E as [part E]. exists part. split; [exact E|].
  destruct (profComponent_prof_part rank p part E) as (r' & _ & ->).
  unfold prof_part. destruct r' as [| | |q]; try reflexivity.
  destruct (Qle_bool q 0); reflexivity.
Qed.

Lemma num_add_finite (a b : num) :
  num_finite a = true -> num_finite b = true ->
  num_finite (num_add a b) = true.
Proof. destruct a, b; simpl; congruence. Qed.

Lemma skill_bonus_plain (sys sk : value) :
  plain sys = true -> plain sk = true ->
  exists b, skill_bonus sys sk = Ok b /\ num_finite b = true.
Proof.
  intros Hs Hk. unfold skill_bonus.
  destruct (parseFlatBonus_plain sk?."bonuses"?."check") as (b1 & E1 & F1);
    [auto with plain|].
  destruct (parseFlatBonus_plain sys?."bonuses"?."abilities"?."skill")
    as (b2 & E2 & F2); [auto with plain|].
  destruct (parseFlatBonus_plain sys?."bonuses"?."skills"?."check")
    as (b3 & E3 & F3); [auto with plain|].
  rewrite E1, E2, E3. cbn [bind]. eexists. split; [reflexivity|].
  auto using num_add_finite.
Qed.

Lemma integral_finite (n : num) : integral n -> num_finite n = true.
Proof. intros [z ->]. reflexivity. Qed.

Lemma mods_get_cases (m : AbilityMods) (key : string) :
  integral_mods m ->
  (exists n, mods_get m key = VNum n /\ num_finite n = true) \/
  mods_get m key = VNative key \/ mods_get m key = VUndef.
Proof.
  intros (H1 & H2 & H3 & H4 & H5 & H6). unfold mods_get.
  repeat match goal with
         | |- context [if String.eqb key ?s then _ else _] =>
             destruct (String.eqb key s);
             [left; eexists; split; [reflexivity|now apply integral_finite]|]
         end.
  destruct (inherited key); auto.
Qed.

Lemma skill_base_plain (mods : AbilityMods) (ability : value) :
  integral_mods mods -> plain ability = true ->
  exists v, skill_base mods ability = Ok v /\
            (finite_or_text v = true \/ exists name, v = VNative name).
Proof.
  intros Hm Hp. unfold skill_base. destruct (truthy ability).
  - destruct (to_string_plain ability Hp) as [key Hk]. rewrite Hk.
    cbn [bind].
    destruct (mods_get_cases mods key Hm) as [(n & -> & F)|[-> | ->]];
      cbn [nullish negb]; eauto.
  - eauto.
Qed.

Lemma js_add_right_number (a : value) (b : num) :
  finite_or_text a = true \/ (exists name, a = VNative name) ->
  num_finite b = true ->
  exists v, js_add a (VNum b) = Ok v /\ finite_or_text v = true.
Proof.
  intros [Ha|[name ->]] Hb.
  - destruct a; try discriminate.
    + eexists. split; [reflexivity|]. cbn. now apply num_add_finite.
    + eexists. split; reflexivity.
  - eexists. split; reflexivity.
Qed.

Lemma js_add_left_number (a : num) (b : value) :
  num_finite a = true -> finite_or_text b = true ->
  exists v, js_add (VNum a) b = Ok v /\ finite_or_text v = true.
Proof.
  intros Ha Hb. destruct b; try discriminate.
  - eexists. split; [reflexivity|]. cbn. now apply num_add_finite.
  - eexists. split; reflexivity.
Qed.

Lemma skill_total_plain (sys : value) (p : Z) (mods : AbilityMods)
  (sk : value) :
  integral_mods mods -> plain sys = true -> plain sk = true ->
  exists t, skill_total sys (of_Z p) mods sk = Ok t /\
            finite_or_text t = true.
Proof.
  intros Hm Hs Hk. unfold skill_total.
  destruct (skill_base_plain mods sk?."ability" Hm) as (base & Eb & Hb);
    [auto with plain|].
  destruct (profComponent_plain sk?."value" p) as (part & Ep & Fp);
    [auto with plain|].
  destruct (skill_bonus_plain sys sk Hs Hk) as (bonus & Es & Fs).
  rewrite Eb, Ep, Es. cbn [bind].
  destruct (js_add_right_number base part Hb Fp) as (t & Et & Ft).
  rewrite Et. cbn [bind].
  exact (js_add_right_number t bonus (or_introl Ft) Fs).
Qed.

Lemma entries_from_plain (l : list value) : forall i,
  Forall (fun v => plain v = true) l ->
  Forall (fun e => plain (snd e) = true) (entries_from i l).
Proof.
  induction l as [|x l IH]; intros i H; simpl; [constructor|].
  inversion H; subst. constructor; auto.
Qed.

Lemma chars_plain (s : string) : Forall (fun v => plain v = true) (chars s).
Proof. induction s; simpl; constructor; auto. Qed.

Lemma entries_plain (v : value) :
  plain v = true -> Forall (fun e => plain (snd e) = true) (entries v).
Proof.
  intro Hp. destruct v; simpl; try constructor.
  - apply entries_from_plain, chars_plain.
  - apply entries_from_plain. now apply forallb_Forall.
  - simpl in Hp. apply andb_true_iff in Hp as [_ Hp].
    exact (forallb_Forall _ _ Hp).
Qed.

Lemma update_Forall (P : string * value -> Prop) (k : string) (v : value)
  (kv : list (string * value)) :
  P (k, v) -> Forall P kv -> Forall P (update k v kv).
Proof.
  intros Hv. induction 1 as [|[k' v'] kv Hx Hkv IH]; simpl.
  - constructor; auto.
  - destruct (String.eqb k k'); constructor; auto.
Qed.

Lemma set_prop_Forall (P : string * value -> Prop) (k : string) (v : value)
  (kv : list (string * value)) :
  P (k, v) -> Forall P kv -> Forall P (set_prop k v kv).
Proof.
  intros Hv Hkv. unfold set_prop.
  destruct (String.eqb k "__proto__"); [exact Hkv|now apply update_Forall].
Qed.

Lemma assoc_Forall (P : string * value -> Prop) (k : string)
  (kv : list (string * value)) (v : value) :
  Forall P kv -> assoc k kv = Some v -> exists k', P (k', v).
Proof.
  induction 1 as [|[k' v'] kv Hx Hkv IH]; simpl; [discriminate|].
  destruct (String.eqb k k'); [intro E; inversion E; subst; eauto|exact IH].
Qed.

(** On a plain document with listed items [dnd5eDerived] returns; what it
    returns holds an integer bonus, integer modifiers, and totals that are
    finite numbers or texts. *)
Lemma dnd5eDerived_plain (actor : value) :
  plain actor = true -> items_listed actor = true ->
  exists d,
    dnd5eDerived actor = Ok d /\
    integral (prof d) /\ integral_mods (abilityMods d) /\
    Forall (fun e => finite_or_text (snd e) = true) (skillTotals d) /\
    finite_or_text (passivePrc d) = true.
Proof.
  intros Hp Hi. unfold dnd5eDerived.
  set (sys := or_else actor?."system" (VObj [])).
  assert (Hsys : plain sys = true) by (unfold sys; auto with plain).
  destruct (totalLevel_plain actor Hp Hi) as [lvl El]. rewrite El.
  cbn [bind].
  destruct (proficiencyBonus_number lvl) as [pr Epr]. rewrite Epr.
  cbn [bind].
  destruct (proficiencyBonus_integral _ _ Epr) as [p ->].
  set (abilities := or_else sys?."abilities" (VObj [])).
  assert (Hab : plain abilities = true) by (unfold abilities; auto with plain).
  destruct (abilityMod_plain abilities?."str"?."value") as [m1 E1];
    [auto with plain|].
  destruct (abilityMod_plain abilities?."dex"?."value") as [m2 E2];
    [auto with plain|].
  destruct (abilityMod_plain abilities?."con"?."value") as [m3 E3];
    [auto with plain|].
  destruct (abilityMod_plain abilities?."int"?."value") as [m4 E4];
    [auto with plain|].
  destruct (abilityMod_plain abilities?."wis"?."value") as [m5 E5];
    [auto with plain|].
  destruct (abilityMod_plain abilities?."cha"?."value") as [m6 E6];
    [auto with plain|].
  rewrite E1, E2, E3, E4, E5, E6. cbn [bind].
  set (mods := {| m_str := m1; m_dex := m2; m_con := m3;
                  m_int := m4; m_wis := m5; m_cha := m6 |}).
  assert (Hm : integral_mods mods).
  { unfold integral_mods, mods. cbn.
    repeat split; eapply abilityMod_integral; eassumption. }
  set (skills := or_else sys?."skills" (VObj [])).
  assert (Hsk : plain skills = true) by (unfold skills; auto with plain).
  destruct (foldM_invariant
              (fun acc e =>
                 t <- skill_total sys (of_Z p) mods (snd e) ;;
                 Ok (set_prop (fst e) t acc))
              (Forall (fun e => finite_or_text (snd e) = true))
              (fun e => plain (snd e) = true)
              (entries skills))
    with (s0 := @nil (string * value)) as (totals & Et & Ht).
  { intros acc e Hacc He.
    destruct (skill_total_plain sys p mods (snd e) Hm Hsys He) as (t & E & F).
    rewrite E. cbn [bind]. eexists. split; [reflexivity|].
    now apply set_prop_Forall. }
  { now apply entries_plain. }
  { constructor. }
  rewrite Et. cbn [bind].
  set (prc := match assoc "prc" totals with
              | Some t => t
              | None => VUndef
              end).
  assert (Hprc : finite_or_text (prc ?? VNum (Fin 0)) = true).
  { unfold prc. destruct (assoc "prc" totals) as [t|] eqn:A; [|reflexivity].
    destruct (assoc_Forall _ _ _ _ Ht A) as [k' F]. cbn [snd] in F.
    destruct t; try discriminate; exact F. }
  destruct (js_add_left_number (Fin 10) _ eq_refl Hprc) as (p0 & E0 & F0).
  rewrite E0. cbn [bind].
  destruct (parseFlatBonus_plain skills?."prc"?."bonuses"?."passive")
    as (b1 & Eb1 & Fb1); [auto with plain|].
  rewrite Eb1. cbn [bind].
  destruct (js_add_right_number p0 b1 (or_introl F0) Fb1) as (p1 & Ep1 & F1).
  rewrite Ep1. cbn [bind].
  destruct (parseFlatBonus_plain sys?."bonuses"?."skills"?."passive")
    as (b2 & Eb2 & Fb2); [auto with plain|].
  rewrite Eb2. cbn [bind].
  destruct (js_add_right_number p1 b2 (or_introl F1) Fb2) as (p2 & Ep2 & F2).
  rewrite Ep2. cbn [bind].
  eexists. split; [reflexivity|]. cbn.
  split; [eexists; reflexivity|]. auto.
Qed.

(** *** The armour class *)

Lemma isItemActiveForBonuses_plain (item : value) :
  plain item = true -> exists b, isItemActiveForBonuses item = Ok b.
Proof.
  intro Hp. unfold isItemActiveForBonuses.
  destruct (to_number_plain
              ((or_else item?."system" (VObj []))?."attunement"
               ?? VNum (Fin 0))) as [n Hn]; [auto with plain|].
  rewrite Hn. eexists. reflexivity.
Qed.

Lemma collectTransferEffects_plain (actor : value) :
  plain actor = true -> items_listed actor = true ->
  exists out, collectTransferEffects actor = Ok out /\
              Forall (fun ef => plain ef = true) out.
Proof.
  intros Hp Hi. unfold collectTransferEffects.
  destruct (items_plain actor Hp Hi) as (l & E & Hl). rewrite E.
  cbn [iterate bind].
  apply (foldM_invariant _ (Forall (fun ef => plain ef = true))
           (fun i => plain i = true)); [|exact Hl|].
  - intros out it Hout Hit.
    destruct (isItemActiveForBonuses_plain it Hit) as [b Eb]. rewrite Eb.
    cbn [bind]. destruct (negb b); [eauto|].
    pose proof (plain_prop it "effects" Hit) as He.
    destruct (it?."effects"); eauto.
    eexists. split; [reflexivity|]. apply Forall_app. split; [exact Hout|].
    apply Forall_filter. now apply forallb_Forall.
  - pose proof (plain_prop actor "effects" Hp) as He.
    destruct (actor?."effects"); try constructor.
    now apply forallb_Forall.
Qed.

Lemma apply_change_plain (st : ACEffects) (ch : value) :
  plain ch = true -> exists st', apply_change st ch = Ok st'.
Proof.
  intro Hp. unfold apply_change.
  destruct (safeText_plain ch?."key") as [k Hk]; [auto with plain|].
  rewrite Hk. cbn [bind]. destruct (is_empty k); [eauto|].
  destruct (to_number_plain (ch?."mode" ?? VNum AE_MODES.CUSTOM))
    as [m Hm]; [auto with plain|].
  rewrite Hm. cbn [bind].
  destruct (parseFlatBonus_plain ch?."value") as (v & Hv & _);
    [auto with plain|].
  rewrite Hv. cbn [bind].
  repeat match goal with
         | |- context [if ?c then _ else _] => destruct c
         end; eauto.
Qed.

Lemma apply_effect_plain (st : ACEffects) (ef : value) :
  plain ef = true -> exists st', apply_effect st ef = Ok st'.
Proof.
  intro Hp. unfold apply_effect.
  pose proof (plain_prop ef "changes" Hp) as Hc.
  destruct (ef?."changes"); eauto.
  destruct (foldM_invariant apply_change (fun _ => True)
              (fun ch => plain ch = true) l) with (s0 := st)
    as (st' & E & _); eauto.
  - intros s a _ Ha. destruct (apply_change_plain s a Ha) as [s' Es]. eauto.
  - now apply forallb_Forall.
Qed.

Lemma extractACFromEffects_plain (actor : value) :
  plain actor = true -> items_listed actor = true ->
  exists st, extractACFromEffects actor = Ok st.
Proof.
  intros Hp Hi. unfold extractACFromEffects.
  destruct (collectTransferEffects_plain actor Hp Hi) as (out & E & Hout).
  rewrite E. cbn [bind].
  destruct (foldM_invariant apply_effect (fun _ => True)
              (fun ef => plain ef = true) out)
    with (s0 := {| add := Fin 0; override := None |}) as (st & Es & _); eauto.
  intros s a _ Ha. destruct (apply_effect_plain s a Ha) as [s' E']. eauto.
Qed.

Lemma getArmorMagicBonus_plain (item : value) :
  plain item = true -> exists n, getArmorMagicBonus item = Ok n.
Proof.
  intro Hp. unfold getArmorMagicBonus.
  match goal with
  | |- context [to_number ?v] =>
      destruct (to_number_plain v) as [n Hn]; [auto 10 with plain|];
      rewrite Hn
  end.
  eexists. reflexivity.
Qed.

Lemma insert_desc_Forall (P : value * num -> Prop) (x : value * num)
  (l : list (value * num)) :
  P x -> Forall P l -> Forall P (insert_desc x l).
Proof.
  intros Hx. induction 1 as [|y l Hy Hl IH]; simpl.
  - constructor; auto.
  - destruct (num_pos (num_sub (snd y) (snd x))); constructor; auto.
Qed.

Lemma sort_desc_Forall (P : value * num -> Prop) (l : list (value * num)) :
  Forall P l -> Forall P (sort_desc l).
Proof.
  unfold sort_desc. induction 1; simpl; [constructor|].
  now apply insert_desc_Forall.
Qed.

Lemma computeACArmorParts_plain (actor : value) :
  plain actor = true -> items_listed actor = true ->
  exists parts, computeACArmorParts actor = Ok parts /\
                plain (bestArmour parts) = true.
Proof.
  intros Hp Hi. unfold computeACArmorParts.
  destruct (items_of_plain actor Hp Hi) as (items & E & Hitems).
  rewrite E. cbn [bind].
  set (equipped := filter (fun i => truthy i?."system"?."equipped") items).
  assert (Heq : Forall (fun i => plain i = true) equipped)
    by now apply Forall_filter.
  match goal with
  | |- context [mapM ?f ?l] =>
      destruct (mapM_invariant f (fun i => plain i = true)
                  (fun s => plain (fst s) = true) l) as (scored & Es & Hs)
  end.
  { intros i Hpi.
    destruct (to_number_plain
                (i?."system"?."armor"?."value" ?? VNum (Fin 0))) as [b Hb];
      [auto 6 with plain|].
    destruct (getArmorMagicBonus_plain i Hpi) as [m Hm].
    rewrite Hb, Hm. cbn [bind]. eexists. split; [reflexivity|exact Hpi]. }
  { now apply Forall_filter. }
  rewrite Es. cbn [bind].
  set (best := match sort_desc scored with
               | b :: _ => fst b
               | [] => VUndef
               end).
  assert (Hbest : plain best = true).
  { unfold best. pose proof (sort_desc_Forall _ _ Hs) as H.
    destruct (sort_desc scored); [reflexivity|]. now inversion H. }
  assert (Eb : exists n,
             (if truthy best
              then to_number best?."system"?."armor"?."value"
              else Ok (Fin 10)) = Ok n).
  { destruct (truthy best); [|eauto].
    apply to_number_plain. auto with plain. }
  destruct Eb as [ab Eb]. rewrite Eb. cbn [bind].
  assert (Em : exists n,
             (if truthy best then getArmorMagicBonus best else Ok (Fin 0))
             = Ok n).
  { destruct (truthy best); [|eauto]. now apply getArmorMagicBonus_plain. }
  destruct Em as [am Em]. rewrite Em. cbn [bind].
  match goal with
  | |- context [foldM ?f ?l ?s] =>
      destruct (foldM_invariant f (fun _ => True) (fun i => plain i = true) l)
        with (s0 := s) as (sh & Esh & _)
  end.
  { intros a s _ Hps.
    destruct (to_number_plain
                (s?."system"?."armor"?."value" ?? VNum (Fin 0))) as [b Hb];
      [auto 6 with plain|].
    destruct (getArmorMagicBonus_plain s Hps) as [m Hm].
    rewrite Hb, Hm. cbn [bind]. eauto. }
  { now apply Forall_filter. }
  { exact I. }
  rewrite Esh. cbn [bind]. eexists. split; [reflexivity|exact Hbest].
Qed.

Lemma dexCapped_plain (dexFull : num) (dexCap : value) :
  plain dexCap = true -> exists n, dexCapped dexFull dexCap = Ok n.
Proof.
  intro Hp. unfold dexCapped.
  destruct (nullish dexCap || str_is dexCap ""); [eauto|].
  destruct (to_number_plain dexCap Hp) as [n Hn]. rewrite Hn.
  eexists. reflexivity.
Qed.

Lemma sysBonus_plain (sys ac : value) :
  plain sys = true -> plain ac = true -> exists n, sysBonus sys ac = Ok n.
Proof.
  intros Hs Ha. unfold sysBonus.
  destruct (parseFlatBonus_plain ac?."bonus") as (b1 & E1 & _);
    [auto with plain|].
  destruct (parseFlatBonus_plain sys?."bonuses"?."ac"?."value")
    as (b2 & E2 & _); [auto with plain|].
  destruct (parseFlatBonus_plain sys?."bonuses"?."ac"?."bonus")
    as (b3 & E3 & _); [auto with plain|].
  destruct (parseFlatBonus_plain sys?."bonuses"?."ac"?."all")
    as (b4 & E4 & _); [auto with plain|].
  rewrite E1, E2, E3, E4. eexists. reflexivity.
Qed.

(** On a plain document with listed items [computeAC] returns, whatever
    the engine and the derived statistics it is given. *)
Lemma computeAC_plain (run : string -> result value) (actor : value)
  (derived : Derived) :
  plain actor = true -> items_listed actor = true ->
  exists n, computeAC run actor derived = Ok n.
Proof.
  intros Hp Hi. unfold computeAC.
  set (sys := or_else actor?."system" (VObj [])).
  assert (Hsys : plain sys = true) by (unfold sys; auto with plain).
  set (ac := or_else sys?."attributes"?."ac" (VObj [])).
  assert (Hac : plain ac = true) by (unfold ac; auto with plain).
  destruct (isFinite ac?."value") eqn:Fv.
  { destruct (ac?."value"); try discriminate. eexists. reflexivity. }
  destruct (isFinite ac?."flat") eqn:Ff.
  { destruct (ac?."flat"); try discriminate. eexists. reflexivity. }
  destruct (computeACArmorParts_plain actor Hp Hi) as (parts & Ep & Hb).
  rewrite Ep. cbn [bind].
  match goal with
  | |- context [dexCapped ?f ?c] =>
      destruct (dexCapped_plain f c) as [dc Edc]
  end.
  { destruct (truthy (bestArmour parts)); auto with plain. }
  rewrite Edc. cbn [bind].
  destruct (extractACFromEffects_plain actor Hp Hi) as [eff Ee].
  rewrite Ee. cbn [bind].
  destruct (sysBonus_plain sys ac Hsys Hac) as [sb Esb].
  rewrite Esb. cbn [bind].
  destruct (finite_override (override eff)); [eauto|].
  destruct (str_is ac?."calc" "custom" && is_string ac?."formula"); [|eauto].
  destruct (ac?."formula"); eauto.
  cbn [bind].
  match goal with
  | |- context [custom_formula ?r ?f ?c ?t] =>
      destruct (custom_formula r f c t)
  end; eauto.
Qed.

Lemma finite_or_text_number_or_text (v : value) :
  finite_or_text v = true -> number_or_text v = true.
Proof. destruct v; simpl; congruence. Qed.




(** ** The custom formula in the earlier revision *)

(** C4 at the input on which the earlier revision departs from it: a
    formula that is a bare 10 and does not name the bonus token, beside a
    flat bonus of 1.  The engine finds 10; the current [computeAC] puts the
    bonus on top, the earlier one returns the 10 as it is. *)
Theorem legacy_formula_drops_bonus :
  includes BONUS_TOKEN "10" = false /\
  computeAC Sample.engine_10 Sample.bare_formula Sample.dex18
  = Ok (of_Z 11) /\
  Legacy.computeAC Sample.engine_10 Sample.bare_formula Sample.dex18
  = Ok (of_Z 10).
Proof. repeat split; vm_compute; reflexivity. Qed.

(** ** The worked examples of the specification *)

Example unarmoured_ac :
  computeAC Sample.no_engine Sample.unarmoured
            (Sample.derived_of Sample.unarmoured) = Ok (of_Z 12).
Proof. vm_compute. reflexivity. Qed.

Example leather_and_ring_ac :
  computeAC Sample.no_engine Sample.leather_and_ring
            (Sample.derived_of Sample.leather_and_ring) = Ok (of_Z 15).
Proof. vm_compute. reflexivity. Qed.

Example overridden_ac :
  computeAC Sample.no_engine Sample.overridden
            (Sample.derived_of Sample.overridden) = Ok (of_Z 22).
Proof. vm_compute. reflexivity. Qed.

Example plate_formula_ac :
  computeAC Sample.engine_18 Sample.plate_formula
            (Sample.derived_of Sample.plate_formula) = Ok (of_Z 19).
Proof. vm_compute. reflexivity. Qed.

Example profComponent_examples :
  profComponent (VNum (Fin 1)) (of_Z 3) = Ok (of_Z 3) /\
  profComponent (VNum (Fin 2)) (of_Z 3) = Ok (of_Z 6) /\
  profComponent (VNum (Fin (1 # 2))) (of_Z 3) = Ok (of_Z 1).
Proof. repeat split; vm_compute; reflexivity. Qed.
